(** * Smart File Organizer: a shallow embedding of [sorter.py]

    The development follows the layout of the Python module:

    - [Py]      the few built-ins of Python the module relies on
                ([str] of an [int], [startswith], [endswith], slicing,
                [rfind], [strip]);
    - [OsPath]  [os.path.join], [os.path.basename], [os.path.splitext]
                as [posixpath] defines them;
    - the interface of the operating system ([os.makedirs], [os.listdir],
      [shutil.move], [os.path.exists], [pdfplumber.open]) as a type class
      with the laws the proofs rely on, and a small in-memory instance;
    - a state-and-exception monad over a [World] (the machine and a trace
      of log records, console output and classifier calls) in which the
      functions of [sorter.py] are written;
    - the functions of [sorter.py], under their own names
      ([load_classifier] and the endless loop of [main] are left out: no
      property below is about them);
    - the properties of these functions.

    Python strings are modelled by [string]; a path is identified with
    the string that names it. *)

From Stdlib Require Import ZArith QArith Lia Ascii.
From stdpp Require Import base gmap sets list strings pretty.

Local Open Scope Z_scope.

(** ** Python built-ins *)

Module Py.

(** [str(n)] for an [int]: decimal digits, a leading [-] when negative. *)
Definition str (n : Z) : string := pretty n.

(** [s.startswith(prefix)] *)
Fixpoint startswith (s pre : string) {struct pre} : bool :=
  match pre, s with
  | "", _ => true
  | String _ _, "" => false
  | String a pre', String b s' =>
      if decide (a = b) then startswith s' pre' else false
  end.

(** [s[i:]] for [0 <= i] *)
Fixpoint drop (i : nat) (s : string) : string :=
  match i, s with
  | O, _ => s
  | S _, "" => ""
  | S i', String _ s' => drop i' s'
  end.

(** [s[:i]] for [0 <= i] *)
Fixpoint take (i : nat) (s : string) : string :=
  match i, s with
  | O, _ => ""
  | S _, "" => ""
  | S i', String a s' => String a (take i' s')
  end.

(** [s.endswith(suffix)] *)
Definition endswith (s suf : string) : bool :=
  let n := String.length s in
  let k := String.length suf in
  if decide (k ≤ n)%nat then bool_decide (drop (n - k) s = suf) else false.

(** [s.rfind(c)] for a one-character [c]: the highest index at which [c]
    occurs, [-1] when it does not occur. *)
Fixpoint rfind (c : ascii) (s : string) : Z :=
  match s with
  | "" => -1
  | String a s' =>
      let r := rfind c s' in
      if decide (0 ≤ r) then r + 1
      else if decide (a = c) then 0 else -1
  end.

(** [s[i:i+1]]: the character at index [i], or the empty string. *)
Definition char_at (i : nat) (s : string) : string := take 1 (drop i s).

(** [c.isspace()] on the code points below 256. *)
Definition isspace (c : ascii) : bool :=
  let n := nat_of_ascii c in
  bool_decide ((9 ≤ n ≤ 13) ∨ (28 ≤ n ≤ 32) ∨ n = 133 ∨ n = 160)%nat.

Fixpoint lstrip (s : string) : string :=
  match s with
  | "" => ""
  | String a s' => if isspace a then lstrip s' else s
  end.

(** [s.strip()] *)
Definition strip (s : string) : string :=
  String.rev (lstrip (String.rev (lstrip s))).

(** Truth value of a [str]: the empty string is false. *)
Definition truthy (s : string) : bool := negb (bool_decide (s = "")).

(** [range(a, b)] *)
Definition range (a b : Z) : list Z :=
  (fun i => a + Z.of_nat i) <$> seq 0 (Z.to_nat (b - a)).

End Py.

(** ** [os.path] on a POSIX system *)

Module OsPath.

Definition sep : ascii := "/"%char.
Definition extsep : ascii := "."%char.

(** One step of [posixpath.join]: a component that starts with the
    separator discards what came before; otherwise a separator is
    inserted unless the path so far is empty or already ends in one. *)
Definition join2 (path b : string) : string :=
  if Py.startswith b "/" then b
  else if bool_decide (path = "") || Py.endswith path "/" then path +:+ b
  else path +:+ "/" +:+ b.

(** [os.path.join(a, *p)] *)
Definition join (a : string) (p : list string) : string :=
  foldl join2 a p.

(** [os.path.basename(p)]: what follows the last separator. *)
Definition basename (p : string) : string :=
  let i := Py.rfind sep p + 1 in
  Py.drop (Z.to_nat i) p.

(** The inner loop of [genericpath._splitext]: is there a character other
    than the dot among [p[filenameIndex .. dotIndex-1]]? *)
Fixpoint has_non_dot (n : nat) (filenameIndex : nat) (p : string) : bool :=
  match n with
  | O => false
  | S n' =>
      if bool_decide (Py.char_at filenameIndex p ≠ ".") then true
      else has_non_dot n' (S filenameIndex) p
  end.

(** [os.path.splitext(p)]: the extension starts at the last dot of the
    last component, leading dots of that component not counting. *)
Definition splitext (p : string) : string * string :=
  let sepIndex := Py.rfind sep p in
  let dotIndex := Py.rfind extsep p in
  if decide (sepIndex < dotIndex) then
    let filenameIndex := sepIndex + 1 in
    if has_non_dot (Z.to_nat (dotIndex - filenameIndex))
                   (Z.to_nat filenameIndex) p
    then (Py.take (Z.to_nat dotIndex) p, Py.drop (Z.to_nat dotIndex) p)
    else (p, "")
  else (p, "").

End OsPath.

(** ** Configuration and constants of [sorter.py] *)

(** [datetime]: only the calendar fields are read. *)
Record datetime := mk_datetime { year : Z; month : Z; day : Z }.

(** The module-level settings read from the environment at import time. *)
Class Config := {
  INPUT_DIR : string;
  OUTPUT_DIR : string;
  CHECK_INTERVAL : Z
}.

(** The settings when no environment variable is set. *)
Definition default_config : Config :=
  {| INPUT_DIR := "./incoming_documents";
     OUTPUT_DIR := "./sorted_documents";
     CHECK_INTERVAL := 30 |}.

Definition DOCUMENT_TYPES : list string := ["Invoices"; "Protocols"; "Reports"].
Definition CANDIDATE_LABELS : list string := ["Invoice"; "Protocol"; "Report"].

Definition LABEL_TO_DIR : gmap string string :=
  <["Invoice" := "Invoices"]>
    (<["Protocol" := "Protocols"]>
      (<["Report" := "Reports"]> ∅)).

(** [LABEL_TO_DIR.get(doc_type, doc_type + "s")] *)
Definition dir_name (doc_type : string) : string :=
  default (doc_type +:+ "s") (LABEL_TO_DIR !! doc_type).

Definition get_week_of_month (date : datetime) : Z :=
  let day_of_month := day date in
  let week_of_month := (day_of_month - 1) `div` 7 + 1 in
  Z.min week_of_month 5.

(** The [target_dir] of [move_file_to_correct_directory]. *)
Definition target_dir `{Config} (doc_type : string) (document_date : datetime)
  : string :=
  let week_of_month := get_week_of_month document_date in
  OsPath.join OUTPUT_DIR
    [dir_name doc_type; Py.str (year document_date);
     "Month_" +:+ Py.str (month document_date);
     "Week_" +:+ Py.str week_of_month].

(** ** Exceptions *)

(** [OSError] and its subclasses. [shutil.Error] derives from [OSError] and
    carries no [errno]. *)
Record OSError := mk_OSError { errno : option Z; strerror : string }.

Definition ENOENT : Z := 2.
Definition EACCES : Z := 13.
Definition ENOTDIR : Z := 20.
Definition EISDIR : Z := 21.

(** The subclasses of [Exception] the module can meet. Signals delivered
    from outside the process ([KeyboardInterrupt], [SystemExit]) are not
    part of the model. *)
Inductive exn :=
  | ExOSError (e : OSError)
  | ExIndexError (msg : string)
  | ExOther (cls msg : string).

(** [isinstance(e, OSError)] *)
Definition is_OSError (e : exn) : bool :=
  match e with ExOSError _ => true | _ => false end.

(** [isinstance(e, FileNotFoundError)]: an [OSError] whose [errno] is
    [ENOENT]. *)
Definition is_FileNotFoundError (e : exn) : bool :=
  match e with
  | ExOSError o => bool_decide (errno o = Some ENOENT)
  | _ => false
  end.

(** ** The operating system as the module sees it *)

(** What [pdfplumber.open(path).pages] yields: for every page, the outcome
    of [page.extract_text()], which is a text, [None], or an exception. *)
Definition Pages : Type := list (exn + option string).

(** The calls [sorter.py] makes into [os], [shutil], [pdfplumber] and
    [datetime], over an abstract state [St] of the machine. A mutating call
    returns the state it leaves behind whether it succeeds or raises. The
    laws are those of [os.makedirs(path, exist_ok=True)]. A call into [os]
    or [shutil] that fails is taken to fail with an [OSError]: an argument
    Python refuses with another exception before it reaches the system (a
    path that holds a NUL character) is outside the model. *)
Class OperatingSystem (St : Type) := {
  (** the path names for which [os.path.exists] holds *)
  paths : St → gset string;
  (** [os.path.isdir] *)
  isdir : St → string → bool;
  (** [os.makedirs(path, exist_ok=True)] *)
  sys_makedirs : string → St → (OSError + unit) * St;
  (** [os.listdir(path)] *)
  sys_listdir : string → St → OSError + list string;
  (** [shutil.move(src, dst)] *)
  sys_move : string → string → St → (OSError + unit) * St;
  (** [pdfplumber.open(path)] and the pages read from it *)
  sys_pdf_open : string → St → exn + Pages;
  (** [datetime.now()] *)
  sys_now : St → datetime * St;

  isdir_paths st p : isdir st p = true → p ∈ paths st;
  makedirs_isdir st st' p :
    sys_makedirs p st = (inr (), st') → isdir st' p = true;
  makedirs_mono st st' r p q :
    sys_makedirs p st = (r, st') → isdir st q = true → isdir st' q = true;
  makedirs_existing st p :
    isdir st p = true → sys_makedirs p st = (inr (), st)
}.

(** ** Observable events *)

Inductive Level := DEBUG | INFO | WARNING | ERROR.

(** [logging.basicConfig(level=logging.INFO)] *)
Definition level_enabled (l : Level) : bool :=
  match l with DEBUG => false | _ => true end.

(** An argument of a logging call, kept unformatted. *)
Inductive LogArg :=
  | AStr (s : string)
  | AInt (n : Z)
  | AFloat (q : Q)
  | AExn (e : exn).

Inductive Event :=
  | EvLog (lvl : Level) (fmt : string) (args : list LogArg)
  | EvPrint (s : string)
  | EvClassify (text : string) (labels : list string).

(** The zero-shot pipeline returns a dictionary with the candidate labels
    ranked by score. *)
Record ClfResult := mk_ClfResult { labels : list string; scores : list Q }.

(** The classifier handed to [classify_document]: it returns a result or
    raises. *)
Definition Classifier : Type := string → list string → exn + ClfResult.

(** ** The monad of the module's functions *)

Record World (St : Type) := mk_World {
  os : St;                (* the machine *)
  trace : list Event      (* log records, console output, classifier calls,
                             oldest first *)
}.
Arguments mk_World {St}.
Arguments os {St}.
Arguments trace {St}.

Inductive Outcome (A : Type) :=
  | Return (a : A)
  | Raise (e : exn)
  | Diverge.                (* a loop ran out of its fuel *)
Arguments Return {A}.
Arguments Raise {A}.
Arguments Diverge {A}.

Definition M (St A : Type) : Type := World St → Outcome A * World St.

Global Instance M_ret {St} : MRet (M St) := λ A a w, (Return a, w).

Global Instance M_bind {St} : MBind (M St) := λ A B f c w,
  match c w with
  | (Return a, w') => f a w'
  | (Raise e, w') => (Raise e, w')
  | (Diverge, w') => (Diverge, w')
  end.

Definition raise {St A} (e : exn) : M St A := λ w, (Raise e, w).

(** [try: body except ...: handler]. The handler answers [None] for an
    exception no [except] clause matches, which then propagates. *)
Definition try_except {St A} (body : M St A) (handler : exn → option (M St A))
  : M St A := λ w,
  match body w with
  | (Raise e, w') =>
      match handler e with
      | Some h => h w'
      | None => (Raise e, w')
      end
  | r => r
  end.

Definition emit {St} (ev : Event) : M St unit := λ w,
  (Return (), mk_World (os w) (trace w ++ [ev])).

(** [logger.<level>(fmt, *args)] *)
Definition log {St} (lvl : Level) (fmt : string) (args : list LogArg)
  : M St unit :=
  if level_enabled lvl then emit (EvLog lvl fmt args) else mret ().

(** [for x in l: body(x)] *)
Fixpoint for_ {St A} (l : list A) (body : A → M St unit) : M St unit :=
  match l with
  | [] => mret ()
  | x :: l' => body x;; for_ l' body
  end.

(** [l[0]] *)
Definition subscript0 {St A} (l : list A) : M St A :=
  match l with
  | x :: _ => mret x
  | [] => raise (ExIndexError "list index out of range")
  end.

Section Sorter.

Context {St : Type} `{OperatingSystem St} `{Config}.

Local Abbreviation M := (M St).

(** *** Calls into the operating system *)

Definition os_path_exists (p : string) : M bool := λ w,
  (Return (bool_decide (p ∈ paths (os w))), w).

Definition os_makedirs (p : string) : M unit := λ w,
  match sys_makedirs p (os w) with
  | (inr _, st') => (Return (), mk_World st' (trace w))
  | (inl e, st') => (Raise (ExOSError e), mk_World st' (trace w))
  end.

Definition os_listdir (p : string) : M (list string) := λ w,
  match sys_listdir p (os w) with
  | inr names => (Return names, w)
  | inl e => (Raise (ExOSError e), w)
  end.

Definition shutil_move (src dst : string) : M unit := λ w,
  match sys_move src dst (os w) with
  | (inr _, st') => (Return (), mk_World st' (trace w))
  | (inl e, st') => (Raise (ExOSError e), mk_World st' (trace w))
  end.

Definition pdfplumber_open (p : string) : M Pages := λ w,
  match sys_pdf_open p (os w) with
  | inr pages => (Return pages, w)
  | inl e => (Raise e, w)
  end.

Definition datetime_now : M datetime := λ w,
  let '(d, st') := sys_now (os w) in (Return d, mk_World st' (trace w)).

(** [page.extract_text()] *)
Definition extract_text (page : exn + option string) : M (option string) :=
  match page with
  | inr t => mret t
  | inl e => raise e
  end.

(** [classifier(text, labels)] *)
Definition call (classifier : Classifier) (text : string)
    (candidates : list string) : M ClfResult :=
  emit (EvClassify text candidates);;
  match classifier text candidates with
  | inr r => mret r
  | inl e => raise e
  end.

(** [print(s, end="")]; writing to the console is taken to succeed. *)
Definition print (s : string) : M unit := emit (EvPrint s).

(** *** [sorter.py] *)

Definition setup_directory_structure : M unit :=
  for_ DOCUMENT_TYPES (λ doc_type,
    for_ (Py.range 2020 2031) (λ year,
      for_ (Py.range 1 13) (λ month,
        for_ (Py.range 1 6) (λ week,
          let path :=
            OsPath.join OUTPUT_DIR
              [doc_type; Py.str year;
               "Month_" +:+ Py.str month; "Week_" +:+ Py.str week] in
          os_makedirs path))));;
  os_makedirs INPUT_DIR;;
  log INFO "Directory structure initialized" [].

(** The page loop of [extract_text_from_pdf]. *)
Fixpoint concat_pages (pages : Pages) (text : string) : M string :=
  match pages with
  | [] => mret text
  | page :: rest =>
      page_text ← extract_text page;
      match page_text with
      | Some t =>
          if Py.truthy t then concat_pages rest (text +:+ t)
          else concat_pages rest text
      | None => concat_pages rest text
      end
  end.

Definition extract_text_from_pdf (file_path : string) : M string :=
  try_except
    (pages ← pdfplumber_open file_path;
     text ← concat_pages pages "";
     mret (Py.strip text))
    (λ e,
       if is_FileNotFoundError e then
         Some (log ERROR "File not found: %s" [AStr file_path];;
               mret "")
       else
         Some (log ERROR "Error extracting text from %s: %s"
                 [AStr file_path; AExn e];;
               mret "")).

Definition classify_document (file_path : string) (classifier : Classifier)
  : M (option string) :=
  text ← extract_text_from_pdf file_path;
  if negb (Py.truthy text) then
    log WARNING "No text extracted from %s. Skipping classification."
      [AStr file_path];;
    mret None
  else
    try_except
      (result ← call classifier text CANDIDATE_LABELS;
       doc_type ← subscript0 (labels result);
       confidence ← subscript0 (scores result);
       log DEBUG "Classified %s as %s with confidence %.2f"
         [AStr file_path; AStr doc_type; AFloat confidence];;
       mret (Some doc_type))
      (λ e,
         Some (log ERROR "Classification failed for %s: %s"
                 [AStr file_path; AExn e];;
               mret None)).

(** [f"{base_name}_{counter}{ext}"] *)
Definition candidate (base_name ext : string) (counter : Z) : string :=
  base_name +:+ "_" +:+ Py.str counter +:+ ext.

(** [while os.path.exists(f"{base_name}_{counter}{ext}"): counter += 1],
    returning the final [counter]. *)
Fixpoint while_exists (fuel : nat) (base_name ext : string) (counter : Z)
  : M Z :=
  match fuel with
  | O => λ w, (Diverge, w)
  | S fuel' =>
      b ← os_path_exists (candidate base_name ext counter);
      if b : bool then while_exists fuel' base_name ext (counter + 1)
      else mret counter
  end.

(** The fuel given to the loop: one more than the number of existing
    paths. [while_exists_fuel] shows that the loop stops within it and
    that any larger amount gives the same result. *)
Definition loop_fuel : M nat := λ w, (Return (S (size (paths (os w)))), w).

(** The block "Handle duplicate files" of
    [move_file_to_correct_directory]. *)
Definition resolve_duplicate (target_file_path : string) : M string :=
  b ← os_path_exists target_file_path;
  if b : bool then
    log INFO "Found duplicate file: %s. Renaming." [AStr target_file_path];;
    let '(base_name, ext) := OsPath.splitext target_file_path in
    fuel ← loop_fuel;
    counter ← while_exists fuel base_name ext 1;
    mret (candidate base_name ext counter)
  else mret target_file_path.

(** A [return] inside an [except] clause leaves the function: the
    guarded statement answers [inl v] for "return [v]" and [inr x] for
    "go on with [x]". *)
Definition move_file_to_correct_directory (file_path : string)
    (doc_type : option string) (document_date : datetime)
  : M (option string) :=
  match doc_type with
  | None => mret None
  | Some doc_type =>
      let target_dir := target_dir doc_type document_date in
      r ← try_except
            (os_makedirs target_dir;; mret (inr ()))
            (λ e,
               if is_OSError e then
                 Some (log ERROR "Failed to create directory %s: %s"
                         [AStr target_dir; AExn e];;
                       mret (inl None))
               else None);
      match r with
      | inl v => mret v
      | inr _ =>
          let target_file_path :=
            OsPath.join target_dir [OsPath.basename file_path] in
          target_file_path ← resolve_duplicate target_file_path;
          try_except
            (shutil_move file_path target_file_path;;
             log INFO "Moved %s to %s"
               [AStr file_path; AStr target_file_path];;
             mret (Some target_file_path))
            (λ e,
               if is_OSError e then
                 Some (log ERROR "Failed to move file %s: %s"
                         [AStr file_path; AExn e];;
                       mret None)
               else None)
      end
  end.

Definition display_sorting_progress (file_name doc_type : string)
    (remaining_time : Z) : M unit :=
  print (String "013"%char "Sorting document: " +:+ file_name
         +:+ " | Classified as: " +:+ doc_type
         +:+ " | Remaining time: " +:+ Py.str remaining_time +:+ "s").

(** Truth value of an [Optional[str]]. *)
Definition truthy_result (r : option string) : bool :=
  match r with
  | Some s => Py.truthy s
  | None => false
  end.

(** The [for file_name in files] loop of [process_files]. *)
Fixpoint process_loop (classifier : Classifier) (files : list string)
    (processed : Z) : M Z :=
  match files with
  | [] => mret processed
  | file_name :: rest =>
      let file_path := OsPath.join INPUT_DIR [file_name] in
      doc_type ← classify_document file_path classifier;
      match doc_type with
      | None => process_loop classifier rest processed
      | Some label =>
          log INFO "Document %s classified as: %s"
            [AStr file_name; AStr label];;
          display_sorting_progress file_name label CHECK_INTERVAL;;
          now ← datetime_now;
          result ← move_file_to_correct_directory file_path doc_type now;
          if truthy_result result
          then process_loop classifier rest (processed + 1)
          else process_loop classifier rest processed
      end
  end.

Definition process_files (classifier : Classifier) : M Z :=
  r ← try_except
        (names ← os_listdir INPUT_DIR;
         mret (inr (filter (λ f, Py.endswith f ".pdf" = true) names)))
        (λ e,
           if is_OSError e then
             Some (log ERROR "Failed to list input directory: %s" [AExn e];;
                   mret (inl 0))
           else None);
  match r with
  | inl v => mret v
  | inr [] =>
      log INFO "No PDF files to sort. Checking again in %d seconds."
        [AInt CHECK_INTERVAL];;
      mret 0
  | inr files => process_loop classifier files 0
  end.

End Sorter.

(** ** A small in-memory machine

    One instance of [OperatingSystem], used to run the functions on
    concrete inputs: a flat map from path names to nodes, a set of path
    names at which nothing can be created (to make calls fail), and a
    clock. *)

Inductive Node :=
  | NFile (content : exn + Pages)   (* what [pdfplumber] makes of the file *)
  | NDir.

Record MemOS := mk_MemOS {
  nodes : gmap string Node;
  locked : gset string;
  clock : datetime
}.

Module Mem.

Definition isdir (st : MemOS) (p : string) : bool :=
  match nodes st !! p with Some NDir => true | _ => false end.

(** The proper ancestors of a path, outermost first. *)
Definition ancestors (p : string) : list string :=
  omap (λ i, if bool_decide (Py.char_at i p = "/")
             then Some (Py.take i p) else None)
       (seq 1 (String.length p - 1)).

Definition set_nodes (st : MemOS) (m : gmap string Node) : MemOS :=
  mk_MemOS m (locked st) (clock st).

(** Create the directories of [qs] in turn, stopping at the first that
    is a file or cannot be created. *)
Fixpoint walk (qs : list string) (st : MemOS) : (OSError + unit) * MemOS :=
  match qs with
  | [] => (inr (), st)
  | q :: rest =>
      match nodes st !! q with
      | Some NDir => walk rest st
      | Some (NFile _) =>
          (inl (mk_OSError (Some ENOTDIR) "Not a directory"), st)
      | None =>
          if bool_decide (q ∈ locked st)
          then (inl (mk_OSError (Some EACCES) "Permission denied"), st)
          else walk rest (set_nodes st (<[q := NDir]> (nodes st)))
      end
  end.

Definition makedirs (p : string) (st : MemOS) : (OSError + unit) * MemOS :=
  if isdir st p then (inr (), st) else walk (ancestors p ++ [p]) st.

(** The name of [k] inside the directory [d], when [k] lies directly in
    it. *)
Definition entry_of (d k : string) : option string :=
  let pre := if Py.endswith d "/" then d else d +:+ "/" in
  let name := Py.drop (String.length pre) k in
  if Py.startswith k pre && Py.truthy name
     && bool_decide (Py.rfind OsPath.sep name = -1)
  then Some name else None.

Definition listdir (d : string) (st : MemOS) : OSError + list string :=
  if isdir st d then inr (omap (entry_of d) (elements (dom (nodes st))))
  else inl (mk_OSError (Some ENOENT) "No such file or directory").

Definition move (src dst : string) (st : MemOS) : (OSError + unit) * MemOS :=
  match nodes st !! src with
  | None => (inl (mk_OSError (Some ENOENT) "No such file or directory"), st)
  | Some n =>
      let real_dst :=
        if isdir st dst then OsPath.join2 dst (OsPath.basename src)
        else dst in
      if bool_decide (real_dst ∈ dom (nodes st)) then
        (inl (mk_OSError None "Destination path already exists"), st)
      else if bool_decide (real_dst ∈ locked st) then
        (inl (mk_OSError (Some EACCES) "Permission denied"), st)
      else (inr (), set_nodes st (<[real_dst := n]> (delete src (nodes st))))
  end.

Definition pdf_open (p : string) (st : MemOS) : exn + Pages :=
  match nodes st !! p with
  | Some (NFile c) => c
  | Some NDir => inl (ExOSError (mk_OSError (Some EISDIR) "Is a directory"))
  | None =>
      inl (ExOSError (mk_OSError (Some ENOENT) "No such file or directory"))
  end.

Definition now (st : MemOS) : datetime * MemOS := (clock st, st).

End Mem.

#[refine] Global Instance mem_os : OperatingSystem MemOS := {|
  paths st := dom (nodes st);
  isdir := Mem.isdir;
  sys_makedirs := Mem.makedirs;
  sys_listdir := Mem.listdir;
  sys_move := Mem.move;
  sys_pdf_open := Mem.pdf_open;
  sys_now := Mem.now
|}.
Proof.
  all: assert (Hmono : ∀ qs st r st' q,
         Mem.walk qs st = (r, st') → Mem.isdir st q = true →
         Mem.isdir st' q = true)
    by abstract (
      induction qs as [|q0 qs IH]; intros st r st' q; simpl;
      [ intros [= _ <-]; done | ];
      destruct (nodes st !! q0) as [[c|]|] eqn:E;
      [ intros [= _ <-]; done | apply IH | ];
      case_bool_decide; [ intros [= _ <-]; done | ];
      intros Hw Hq; eapply IH; [ exact Hw | ];
      unfold Mem.isdir in *; simpl;
      destruct (decide (q0 = q)) as [->|Hne];
      [ by rewrite lookup_insert_eq | by rewrite lookup_insert_ne ]).
  all: assert (Hall : ∀ qs st st' q,
         Mem.walk qs st = (inr (), st') → q ∈ qs → Mem.isdir st' q = true)
    by abstract (
      induction qs as [|q0 qs IH]; intros st st' q; simpl;
      [ intros _ Hin; by apply elem_of_nil in Hin | ];
      intros Hw Hin;
      destruct (nodes st !! q0) as [[c|]|] eqn:E; [ done | | ];
      [ apply elem_of_cons in Hin as [->|Hin];
        [ eapply Hmono; [ exact Hw | unfold Mem.isdir; by rewrite E ]
        | by eapply IH ]
      | case_bool_decide; [ done | ];
        apply elem_of_cons in Hin as [->|Hin];
        [ eapply Hmono; [ exact Hw | ];
          unfold Mem.isdir; simpl; by rewrite lookup_insert_eq
        | by eapply IH ] ]).
  - intros st p. unfold Mem.isdir. intros Hd. apply elem_of_dom.
    destruct (nodes st !! p); [ eauto | done ].
  - intros st st' p. unfold Mem.makedirs.
    destruct (Mem.isdir st p) eqn:E; [ by intros [= <-] | ].
    intros Hw. eapply Hall; [ exact Hw | ]. set_solver.
  - intros st st' r p q. unfold Mem.makedirs.
    destruct (Mem.isdir st p) eqn:E; [ by intros [= _ <-] | ].
    apply Hmono.
  - intros st p. unfold Mem.makedirs. by intros ->.
Defined.

(** *** Sample data *)

(** A classifier that always ranks [Invoice] first. *)
Definition invoice_classifier : Classifier := λ _ _,
  inr (mk_ClfResult ["Invoice"; "Protocol"; "Report"]
         [(9 # 10)%Q; (1 # 20)%Q; (1 # 20)%Q]).

(** A classifier that always fails. *)
Definition broken_classifier : Classifier := λ _ _,
  inl (ExOther "RuntimeError" "Model error").

Definition one_page (t : string) : Node := NFile (inr [inr (Some t)]).

Definition june15 : datetime := mk_datetime 2024 6 15.

(** An input directory with one invoice in it. *)
Definition sample_os : MemOS :=
  mk_MemOS
    (<["./incoming_documents" := NDir]>
      (<["./incoming_documents/a.pdf" := one_page "invoice text"]> ∅))
    ∅ june15.

(** A machine with nothing on it. *)
Definition empty_os : MemOS := mk_MemOS ∅ ∅ june15.

(** The sample machine with an output root under which nothing can be
    created. *)
Definition locked_os : MemOS :=
  mk_MemOS (nodes sample_os) {["./sorted_documents"]} june15.

(** A directory in which [X.pdf] and [X_1.pdf] are taken. *)
Definition duplicates_os : MemOS :=
  mk_MemOS
    (<["out" := NDir]>
      (<["out/X.pdf" := one_page "first"]>
        (<["out/X_1.pdf" := one_page "second"]> ∅)))
    ∅ june15.

(** The sample machine on which the place the invoice goes to is taken. *)
Definition taken_slot_os : MemOS :=
  mk_MemOS
    (<["./sorted_documents/Invoices/2024/Month_6/Week_3/a.pdf"
       := one_page "an older invoice"]> (nodes sample_os))
    ∅ june15.

(** The sample machine with a scanned page that carries no text. *)
Definition blank_os : MemOS :=
  mk_MemOS
    (<["./incoming_documents" := NDir]>
      (<["./incoming_documents/a.pdf" := NFile (inr [inr None])]> ∅))
    ∅ june15.

(** A machine with one file made of the given pages. *)
Definition pages_os (pages : Pages) : MemOS :=
  mk_MemOS
    (<["./incoming_documents" := NDir]>
      (<["./incoming_documents/a.pdf" := NFile (inr pages)]> ∅))
    ∅ june15.

(** Four pages: text, no text, an empty text, text. *)
Definition four_pages : Pages :=
  [inr (Some "  Page 1"); inr None; inr (Some ""); inr (Some "Page 2 ")].

(** A page that cannot be read, after one that can. *)
Definition torn_pages : Pages :=
  [inr (Some "Page 1"); inl (ExOther "PDFSyntaxError" "bad page");
   inr (Some "Page 3")].

(** Pages that hold white space only. *)
Definition white_pages : Pages :=
  [inr (Some "   "); inr (Some (String "010"%char " "))].

(** An input directory without a PDF in it. *)
Definition notes_os : MemOS :=
  mk_MemOS
    (<["./incoming_documents" := NDir]>
      (<["./incoming_documents/notes.txt" := one_page "notes"]> ∅))
    ∅ june15.

(** A classifier that ranks nothing. *)
Definition unranked_classifier : Classifier := λ _ _,
  inr (mk_ClfResult [] []).

Definition world0 {St} (st : St) : World St := mk_World st [].

(** ** Notions used to state the properties *)

(** The ceiling of [a / b] for [0 < b]. *)
Definition ceil_div (a b : Z) : Z := - ((- a) `div` b).

(** The directory the planner is meant to produce, written out:
    [<output_root>/<dir_name>/<year>/Month_<month>/Week_<week>]. *)
Definition planned_dir (root dir : string) (y m wk : Z) : string :=
  root +:+ "/" +:+ dir +:+ "/" +:+ Py.str y
       +:+ "/Month_" +:+ Py.str m +:+ "/Week_" +:+ Py.str wk.

(** The last character of a string. *)
Fixpoint last_char (s : string) : option ascii :=
  match s with
  | "" => None
  | String a "" => Some a
  | String _ s' => last_char s'
  end.

(** A string that is not empty and does not end in the separator. *)
Definition plain_end (s : string) : Prop :=
  ∃ c, last_char s = Some c ∧ c ≠ "/"%char.

(** A string that does not start with the separator. *)
Definition no_lead (s : string) : Prop := Py.startswith s "/" = false.

(** The last component of [x] has a character other than the dot, so that
    [x] can be the stem of a file name. *)
Definition proper_stem (x : string) : Prop :=
  ∃ j : nat, Py.rfind OsPath.sep x < Z.of_nat j
             ∧ (j < String.length x)%nat
             ∧ Py.char_at j x ≠ ".".

(** The invocations of the classifier recorded in a trace. *)
Definition classifier_calls (t : list Event) : list (string * list string) :=
  omap (λ ev, match ev with
              | EvClassify text candidates => Some (text, candidates)
              | _ => None
              end) t.

(** A statement that only creates directories keeps those there are. *)
Definition keeps_dirs {St} `{OperatingSystem St} (c : M St unit) : Prop :=
  ∀ w r w' q, c w = (r, w') → isdir (os w) q = true → isdir (os w') q = true.

(** A page whose text can be extracted without an exception. *)
Definition readable (page : exn + option string) : Prop :=
  match page with inr _ => True | inl _ => False end.

(** The text of the pages that have one, in page order. *)
Definition page_texts (pages : Pages) : string :=
  foldr (λ page acc, match page with
                     | inr (Some t) => t +:+ acc
                     | _ => acc
                     end) "" pages.

(** Every character of the string is white space. *)
Fixpoint all_space (s : string) : bool :=
  match s with
  | "" => true
  | String a s' => Py.isspace a && all_space s'
  end.

(** The first character of a string. *)
Definition first_char (s : string) : option ascii :=
  match s with
  | "" => None
  | String a _ => Some a
  end.

(** The character occurs in the string. *)
Fixpoint has_char (c : ascii) (s : string) : bool :=
  match s with
  | "" => false
  | String a s' => bool_decide (a = c) || has_char c s'
  end.

(** What a well-formed classifier call looks like: a text that is not
    empty and has no white space at either end, and the three candidate
    labels. *)
Definition proper_call (c : string * list string) : Prop :=
  c.1 ≠ ""
  ∧ (∀ a, first_char c.1 = Some a → Py.isspace a = false)
  ∧ (∀ a, last_char c.1 = Some a → Py.isspace a = false)
  ∧ c.2 = CANDIDATE_LABELS.

(** The record [extract_text_from_pdf] logs for an exception. *)
Definition extraction_error (file_path : string) (e : exn) : Event :=
  if is_FileNotFoundError e
  then EvLog ERROR "File not found: %s" [AStr file_path]
  else EvLog ERROR "Error extracting text from %s: %s"
         [AStr file_path; AExn e].

(** A statement that returns or raises an [OSError] and writes nothing to
    the trace, as [os.makedirs] does. *)
Definition quiet_step {St} (c : M St unit) : Prop :=
  ∀ w, ∃ w', trace w' = trace w
             ∧ (c w = (Return (), w') ∨ ∃ e, c w = (Raise (ExOSError e), w')).

(** The four nested loops of [setup_directory_structure]. *)
Definition tree_loops {St} `{OperatingSystem St} `{Config} : M St unit :=
  for_ DOCUMENT_TYPES (λ doc_type,
    for_ (Py.range 2020 2031) (λ year,
      for_ (Py.range 1 13) (λ month,
        for_ (Py.range 1 6) (λ week,
          os_makedirs
            (OsPath.join OUTPUT_DIR
               [doc_type; Py.str year;
                "Month_" +:+ Py.str month; "Week_" +:+ Py.str week]))))).

(** The record [setup_directory_structure] logs at its end. *)
Definition setup_done : Event :=
  EvLog INFO "Directory structure initialized" [].

(** * Properties *)

Lemma pair_eta_fst {A B} (p : A * B) (a : A) : fst p = a → p = (a, snd p).
Proof. destruct p. simpl. by intros ->. Qed.

(** ** Strings and paths *)

Lemma string_app_cons a s t : String a s +:+ t = String a (s +:+ t).
Proof. reflexivity. Qed.

Lemma string_app_nil_l s : "" +:+ s = s.
Proof. reflexivity. Qed.

Lemma string_app_nil_r s : s +:+ "" = s.
Proof. induction s as [|a s IH]; [done|]. by rewrite string_app_cons, IH. Qed.

Lemma string_app_assoc s t u : (s +:+ t) +:+ u = s +:+ t +:+ u.
Proof. induction s as [|a s IH]; [done|]. by rewrite !string_app_cons, IH. Qed.

Lemma string_length_app s t :
  String.length (s +:+ t) = (String.length s + String.length t)%nat.
Proof. induction s as [|a s IH]; [done|]. rewrite string_app_cons. simpl. by rewrite IH. Qed.

(** Cancellation on the right, for prefixes of equal length. *)
Lemma string_app_inv_tail_len s s' t t' :
  String.length s = String.length s' → s +:+ t = s' +:+ t' → s = s'.
Proof.
  revert s'. induction s as [|a s IH]; intros [|a' s']; try done.
  rewrite !string_app_cons. intros [= Hl] [= -> Ht]. f_equal. by apply IH.
Qed.

Lemma string_app_inv_tail s s' t : s +:+ t = s' +:+ t → s = s'.
Proof.
  intros Heq. eapply string_app_inv_tail_len; [|exact Heq].
  apply (f_equal String.length) in Heq. rewrite !string_length_app in Heq. lia.
Qed.

Lemma last_char_app s t : t ≠ "" → last_char (s +:+ t) = last_char t.
Proof.
  intros Ht. induction s as [|a s IH]; [done|].
  rewrite string_app_cons. simpl. rewrite IH.
  destruct (s +:+ t) eqn:E; [|done].
  destruct s; [by rewrite string_app_nil_l in E|by rewrite string_app_cons in E].
Qed.

Lemma plain_end_app s t : plain_end t → plain_end (s +:+ t).
Proof.
  intros (c & Hc & Hne). exists c. split; [|done].
  rewrite last_char_app; [done|]. by intros ->.
Qed.

Lemma drop_last s :
  Py.drop (String.length s - 1) s
  = match last_char s with Some c => String c "" | None => "" end.
Proof.
  induction s as [|a s IH]; [done|].
  simpl String.length. replace (S (String.length s) - 1)%nat
    with (String.length s) by lia.
  destruct s as [|b s]; [done|].
  simpl String.length. simpl Py.drop.
  replace (String.length s) with (String.length (String b s) - 1)%nat
    by (simpl; lia).
  rewrite IH. done.
Qed.

Lemma endswith_sep s :
  Py.endswith s "/" = bool_decide (last_char s = Some "/"%char).
Proof.
  unfold Py.endswith. simpl String.length. case_decide as Hl.
  - rewrite drop_last. destruct (last_char s) as [c|] eqn:E.
    + apply bool_decide_ext. split; congruence.
    + destruct s; simpl in *; [lia|]. by destruct s.
  - destruct s; simpl in *; [|lia]. done.
Qed.

Lemma plain_end_endswith s : plain_end s → Py.endswith s "/" = false.
Proof.
  intros (c & Hc & Hne). rewrite endswith_sep, Hc.
  apply bool_decide_eq_false. congruence.
Qed.

Lemma plain_end_nonempty s : plain_end s → s ≠ "".
Proof. intros (c & Hc & _) ->. done. Qed.

Lemma join2_plain a b :
  plain_end a → no_lead b → OsPath.join2 a b = a +:+ "/" +:+ b.
Proof.
  intros Ha Hb. unfold OsPath.join2. rewrite Hb.
  rewrite (plain_end_endswith _ Ha).
  rewrite bool_decide_eq_false_2; [done|]. by apply plain_end_nonempty.
Qed.

Lemma join2_absolute a b : Py.startswith b "/" = true → OsPath.join2 a b = b.
Proof. intros Hb. unfold OsPath.join2. by rewrite Hb. Qed.

Lemma no_lead_app s t : s ≠ "" → no_lead s → no_lead (s +:+ t).
Proof.
  unfold no_lead. destruct s as [|a s]; [done|]. intros _.
  rewrite string_app_cons. simpl. by case_decide.
Qed.

(** *** Decimal numerals *)

Lemma pretty_N_char_not_sep x : pretty_N_char x ≠ "/"%char.
Proof. unfold pretty_N_char. by repeat case_match. Qed.

Lemma pretty_N_go_plain_end x s : plain_end s → plain_end (pretty_N_go x s).
Proof.
  revert s. induction (N.lt_wf_0 x) as [x _ IH]; intros s Hs.
  destruct (decide (x = 0)%N) as [->|Hx]; [by rewrite pretty_N_go_0|].
  rewrite pretty_N_go_step by lia. apply IH; [apply N.div_lt; lia|].
  destruct Hs as (c & Hc & Hne). exists c. split; [|done].
  simpl. destruct s; [done|done].
Qed.

Lemma pretty_N_go_no_lead x s : no_lead s → no_lead (pretty_N_go x s).
Proof.
  revert s. induction (N.lt_wf_0 x) as [x _ IH]; intros s Hs.
  destruct (decide (x = 0)%N) as [->|Hx]; [by rewrite pretty_N_go_0|].
  rewrite pretty_N_go_step by lia. apply IH; [apply N.div_lt; lia|].
  unfold no_lead. simpl. case_decide as E; [|done].
  by destruct (pretty_N_char_not_sep (x `mod` 10)%N).
Qed.

Lemma pretty_N_plain_end (x : N) : plain_end (pretty x).
Proof.
  unfold pretty, pretty_N. case_decide as Hx; [by exists "0"%char|].
  rewrite pretty_N_go_step by lia. apply pretty_N_go_plain_end.
  eexists. split; [done|]. apply pretty_N_char_not_sep.
Qed.

Lemma pretty_N_no_lead (x : N) : no_lead (pretty x).
Proof.
  unfold pretty, pretty_N. case_decide; [done|]. by apply pretty_N_go_no_lead.
Qed.

Lemma str_plain_end n : plain_end (Py.str n).
Proof.
  unfold Py.str, pretty, pretty_Z. destruct n as [|p|p].
  - by exists "0"%char.
  - apply pretty_N_plain_end.
  - apply plain_end_app, pretty_N_plain_end.
Qed.

Lemma str_no_lead n : no_lead (Py.str n).
Proof.
  unfold Py.str, pretty, pretty_Z. destruct n as [|p|p]; [done| |done].
  apply pretty_N_no_lead.
Qed.

Lemma str_inj n m : Py.str n = Py.str m → n = m.
Proof. apply pretty_Z_inj. Qed.

(** *** Slices, [rfind] and [splitext] *)

Lemma take_app a b : Py.take (String.length a) (a +:+ b) = a.
Proof. induction a as [|x a IH]; [by destruct b|]. rewrite string_app_cons. simpl. by rewrite IH. Qed.

Lemma drop_app a b : Py.drop (String.length a) (a +:+ b) = b.
Proof. induction a as [|x a IH]; [done|]. rewrite string_app_cons. simpl. by rewrite IH. Qed.

Lemma char_at_app_l j a b :
  (j < String.length a)%nat → Py.char_at j (a +:+ b) = Py.char_at j a.
Proof.
  unfold Py.char_at. revert j. induction a as [|x a IH]; intros j Hj; simpl in Hj; [lia|].
  rewrite string_app_cons. destruct j as [|j]; [done|]. simpl. apply IH. lia.
Qed.

Lemma rfind_bounds c s : -1 ≤ Py.rfind c s < Z.of_nat (String.length s).
Proof.
  induction s as [|a s IH]; simpl; [lia|].
  repeat case_decide; lia.
Qed.

Lemma rfind_app c a b :
  Py.rfind c (a +:+ b) =
    if decide (0 ≤ Py.rfind c b)
    then Z.of_nat (String.length a) + Py.rfind c b
    else Py.rfind c a.
Proof.
  induction a as [|x a IH].
  - rewrite string_app_nil_l. simpl. pose proof (rfind_bounds c b).
    case_decide; lia.
  - rewrite string_app_cons. simpl Py.rfind. rewrite IH.
    pose proof (rfind_bounds c a). simpl String.length.
    repeat case_decide; lia.
Qed.

Lemma has_non_dot_true n i p :
  (∃ j, (i ≤ j < i + n)%nat ∧ Py.char_at j p ≠ ".") →
  OsPath.has_non_dot n i p = true.
Proof.
  revert i. induction n as [|n IH]; intros i (j & Hj & Hc); [lia|].
  simpl. case_bool_decide as Hi; [done|].
  apply IH. exists j. split; [|done].
  destruct (decide (j = i)) as [->|]; [|lia].
  by destruct Hi.
Qed.

(** A file name [x.pdf] with a proper stem splits into [x] and [.pdf]. *)
Lemma splitext_pdf x :
  proper_stem x → OsPath.splitext (x +:+ ".pdf") = (x, ".pdf").
Proof.
  intros (j & Hj1 & Hj2 & Hj3). unfold OsPath.splitext.
  rewrite !rfind_app.
  replace (Py.rfind OsPath.sep ".pdf") with (-1) by (by vm_compute).
  replace (Py.rfind OsPath.extsep ".pdf") with 0 by (by vm_compute).
  rewrite (decide_False (P := 0 ≤ -1)) by lia.
  rewrite (decide_True (P := 0 ≤ 0)) by lia.
  pose proof (rfind_bounds OsPath.sep x) as Hb.
  rewrite decide_True by lia.
  rewrite has_non_dot_true.
  - replace (Z.to_nat (Z.of_nat (String.length x) + 0))
      with (String.length x) by lia.
    by rewrite take_app, drop_app.
  - exists j. split; [lia|]. by rewrite char_at_app_l.
Qed.

(** ** Week of the month *)

Lemma ceil_div_spec a b :
  0 < b → b * (ceil_div a b - 1) < a ≤ b * ceil_div a b.
Proof.
  intros Hb. unfold ceil_div.
  pose proof (Z.div_mod (- a) b ltac:(lia)) as Hdm.
  pose proof (Z.mod_pos_bound (- a) b Hb) as Hm.
  nia.
Qed.

Lemma ceil_div_unique a b c :
  0 < b → b * (c - 1) < a ≤ b * c → ceil_div a b = c.
Proof.
  intros Hb Hc. pose proof (ceil_div_spec a b Hb). nia.
Qed.

Lemma week_formula d : (d - 1) `div` 7 + 1 = ceil_div d 7.
Proof.
  symmetry. apply ceil_div_unique; [lia|].
  pose proof (Z.div_mod (d - 1) 7 ltac:(lia)).
  pose proof (Z.mod_pos_bound (d - 1) 7 ltac:(lia)).
  lia.
Qed.

(** C1. For a date whose day of the month [d] lies in 1..31,
    [get_week_of_month] returns [min(ceil(d/7), 5)]: days 1-7 give week 1,
    8-14 week 2, 15-21 week 3, 22-28 week 4 and 29-31 week 5. *)
Theorem get_week_of_month_spec (date : datetime) :
  1 ≤ day date ≤ 31 →
  get_week_of_month date = Z.min (ceil_div (day date) 7) 5
  ∧ (1 ≤ day date ≤ 7 → get_week_of_month date = 1)
  ∧ (8 ≤ day date ≤ 14 → get_week_of_month date = 2)
  ∧ (15 ≤ day date ≤ 21 → get_week_of_month date = 3)
  ∧ (22 ≤ day date ≤ 28 → get_week_of_month date = 4)
  ∧ (29 ≤ day date ≤ 31 → get_week_of_month date = 5).
Proof.
  intros Hd. unfold get_week_of_month.
  split; [by rewrite week_formula|].
  assert (Hq : ∀ k, 7 * k + 1 ≤ day date ≤ 7 * k + 7 →
                    (day date - 1) `div` 7 = k).
  { intros k Hk. symmetry. apply (Z.div_unique _ 7 k (day date - 1 - 7 * k)); lia. }
  repeat split; intros Hr.
  - rewrite (Hq 0) by lia. done.
  - rewrite (Hq 1) by lia. done.
  - rewrite (Hq 2) by lia. done.
  - rewrite (Hq 3) by lia. done.
  - rewrite (Hq 4) by lia. done.
Qed.

Lemma get_week_of_month_spec_witness :
  get_week_of_month (mk_datetime 2024 1 31) = Z.min (ceil_div 31 7) 5
  ∧ get_week_of_month (mk_datetime 2024 1 31) = 5.
Proof.
  pose proof (get_week_of_month_spec (mk_datetime 2024 1 31)) as H.
  simpl in H. destruct H as (H1 & _ & _ & _ & _ & H5); [lia|].
  split; [exact H1 | apply H5; lia].
Defined.

(** ** The label table *)

Lemma LABEL_TO_DIR_lookup label :
  LABEL_TO_DIR !! label =
    if decide (label = "Invoice") then Some "Invoices"
    else if decide (label = "Protocol") then Some "Protocols"
    else if decide (label = "Report") then Some "Reports"
    else None.
Proof.
  unfold LABEL_TO_DIR.
  repeat (rewrite lookup_insert; case_decide; simplify_eq; [by repeat case_decide|]).
  rewrite lookup_empty. by repeat case_decide.
Qed.

(** C4. The mapping from type labels to directory names sends [Invoice]
    to [Invoices], [Protocol] to [Protocols], [Report] to [Reports], and
    every other label to the label followed by "s". *)
Theorem dir_name_spec :
  dir_name "Invoice" = "Invoices"
  ∧ dir_name "Protocol" = "Protocols"
  ∧ dir_name "Report" = "Reports"
  ∧ dir_name "Foo" = "Foos"
  ∧ ∀ label,
      label ≠ "Invoice" → label ≠ "Protocol" → label ≠ "Report" →
      LABEL_TO_DIR !! label = None ∧ dir_name label = label +:+ "s".
Proof.
  repeat split; try done.
  - rewrite LABEL_TO_DIR_lookup. by repeat (case_decide; [done|]).
  - unfold dir_name. rewrite LABEL_TO_DIR_lookup.
    by repeat (case_decide; [done|]).
Qed.

Lemma dir_name_spec_witness : dir_name "Memo" = "Memos".
Proof.
  destruct dir_name_spec as (_ & _ & _ & _ & H).
  apply (H "Memo"); discriminate.
Defined.

(** ** The target directory *)

Lemma dir_name_plain_end label : plain_end (dir_name label).
Proof.
  unfold dir_name. rewrite LABEL_TO_DIR_lookup.
  repeat (case_decide; [by exists "s"%char|]).
  simpl. apply plain_end_app. by exists "s"%char.
Qed.

Lemma dir_name_no_lead label : no_lead label → no_lead (dir_name label).
Proof.
  intros Hl. unfold dir_name. rewrite LABEL_TO_DIR_lookup.
  repeat (case_decide; [done|]). simpl.
  destruct label as [|a l]; [done|]. by apply no_lead_app.
Qed.

Lemma dir_name_lead label :
  Py.startswith label "/" = true → Py.startswith (dir_name label) "/" = true.
Proof.
  intros Hl. unfold dir_name. rewrite LABEL_TO_DIR_lookup.
  repeat (case_decide; [by simplify_eq|]). simpl.
  destruct label as [|a l]; [done|]. rewrite string_app_cons. simpl in *.
  by case_decide.
Qed.

(** Joining components none of which is absolute or ends in a separator
    writes them out with single separators. *)
Lemma join_plain root d y m wk :
  plain_end root → no_lead d → plain_end d →
  OsPath.join root
    [d; Py.str y; "Month_" +:+ Py.str m; "Week_" +:+ Py.str wk]
  = planned_dir root d y m wk.
Proof.
  intros Hroot Hd1 Hd2. unfold OsPath.join, planned_dir. simpl.
  rewrite (join2_plain root d) by done.
  rewrite (join2_plain _ (Py.str y));
    [|by rewrite <-string_app_assoc; apply plain_end_app|apply str_no_lead].
  rewrite (join2_plain _ ("Month_" +:+ Py.str m));
    [|by rewrite <-!string_app_assoc; apply plain_end_app, str_plain_end|done].
  rewrite (join2_plain _ ("Week_" +:+ Py.str wk));
    [|by rewrite <-!string_app_assoc; apply plain_end_app, str_plain_end|done].
  by rewrite !string_app_assoc.
Qed.

(** An absolute first component makes [os.path.join] drop the root. *)
Lemma join_absolute root d y m wk :
  Py.startswith d "/" = true → plain_end d →
  OsPath.join root
    [d; Py.str y; "Month_" +:+ Py.str m; "Week_" +:+ Py.str wk]
  = d +:+ "/" +:+ Py.str y
      +:+ "/Month_" +:+ Py.str m +:+ "/Week_" +:+ Py.str wk.
Proof.
  intros Hd1 Hd2. unfold OsPath.join. simpl.
  rewrite (join2_absolute root d) by done.
  rewrite (join2_plain _ (Py.str y)); [|done|apply str_no_lead].
  rewrite (join2_plain _ ("Month_" +:+ Py.str m));
    [|by rewrite <-!string_app_assoc; apply plain_end_app, str_plain_end|done].
  rewrite (join2_plain _ ("Week_" +:+ Py.str wk));
    [|by rewrite <-!string_app_assoc; apply plain_end_app, str_plain_end|done].
  by rewrite !string_app_assoc.
Qed.

(** C3, as stated, fails: a type label that starts with the separator is
    taken by [os.path.join] as an absolute path, and the output root
    disappears from the result. *)
Lemma target_dir_absolute_label :
  ¬ (∀ (cfg : Config) (label : string) (date : datetime),
       @target_dir cfg label date
       = planned_dir (@OUTPUT_DIR cfg) (dir_name label) (year date)
           (month date) (get_week_of_month date)).
Proof.
  intros Hall. specialize (Hall default_config "/x" june15).
  vm_compute in Hall. discriminate Hall.
Qed.

(** C3, amended. Path planning is a function of the settings, the type
    label and the date alone. For an output root that is not empty and
    does not end in a separator, and a label that does not start with one,
    it yields exactly
    [<output_root>/<dir_name>/<year>/Month_<month>/Week_<week>]; the same
    label and date always give the same string. *)
Theorem target_dir_spec `{Config} (label : string) (date : datetime) :
  plain_end OUTPUT_DIR →
  no_lead label →
  target_dir label date
  = planned_dir OUTPUT_DIR (dir_name label) (year date) (month date)
      (get_week_of_month date)
  ∧ ∀ label' date',
      label' = label → date' = date →
      target_dir label' date' = target_dir label date.
Proof.
  intros Hroot Hl. split; [|by intros ?? -> ->].
  unfold target_dir. apply join_plain; [done| |].
  - by apply dir_name_no_lead.
  - apply dir_name_plain_end.
Qed.

Lemma target_dir_spec_witness :
  @target_dir default_config "Invoice" june15
  = "./sorted_documents/Invoices/2024/Month_6/Week_3".
Proof.
  refine (proj1 (@target_dir_spec default_config "Invoice" june15 _ _)).
  - exists "s"%char. split; [reflexivity | discriminate].
  - reflexivity.
Defined.

(** A label that starts with a separator sends the file outside the
    output root. *)
Lemma target_dir_absolute `{Config} (label : string) (date : datetime) :
  Py.startswith label "/" = true →
  target_dir label date
  = dir_name label +:+ "/" +:+ Py.str (year date)
      +:+ "/Month_" +:+ Py.str (month date)
      +:+ "/Week_" +:+ Py.str (get_week_of_month date).
Proof.
  intros Hl. unfold target_dir. apply join_absolute.
  - by apply dir_name_lead.
  - apply dir_name_plain_end.
Qed.

Lemma string_app_nonempty a b : a ≠ "" ∨ b ≠ "" → a +:+ b ≠ "".
Proof.
  intros Hab Heq. apply (f_equal String.length) in Heq.
  rewrite string_length_app in Heq. simpl in Heq.
  destruct a, b; simpl in *; try lia. by destruct Hab.
Qed.

Lemma join2_nonempty a b : a ≠ "" ∨ b ≠ "" → OsPath.join2 a b ≠ "".
Proof.
  intros Hab. unfold OsPath.join2.
  destruct (Py.startswith b "/") eqn:Hb; [by destruct b|].
  destruct (_ || _); [by apply string_app_nonempty|].
  apply string_app_nonempty. by right.
Qed.

Lemma target_dir_nonempty `{Config} label date : target_dir label date ≠ "".
Proof. unfold target_dir, OsPath.join. simpl. apply join2_nonempty. by right. Qed.

Lemma elem_of_range a b x : x ∈ Py.range a b ↔ a ≤ x < b.
Proof.
  unfold Py.range. rewrite list_elem_of_fmap. setoid_rewrite elem_of_seq.
  split.
  - intros (i & -> & Hi). lia.
  - intros Hx. exists (Z.to_nat (x - a)). lia.
Qed.

(** ** Candidate names *)

Lemma candidate_inj base ext n m :
  candidate base ext n = candidate base ext m → n = m.
Proof.
  unfold candidate. intros Heq.
  apply String.app_inj in Heq. apply (String.app_inj "_") in Heq.
  apply string_app_inv_tail in Heq. by apply str_inj.
Qed.

(** ** Running the monad *)

Section Properties.

Context {St : Type} {OS : OperatingSystem St} {cfg : Config}.

Implicit Types (w : World St) (clf : Classifier).

#[local] Arguments OsPath.join : simpl never.

Lemma bind_run {A B} (c : M St A) (f : A → M St B) w :
  (c ≫= f) w = match c w with
               | (Return a, w') => f a w'
               | (Raise e, w') => (Raise e, w')
               | (Diverge, w') => (Diverge, w')
               end.
Proof. reflexivity. Qed.

Lemma log_run lvl fmt args w :
  log lvl fmt args w =
    (Return (), if level_enabled lvl
                then mk_World (os w) (trace w ++ [EvLog lvl fmt args])
                else w).
Proof. unfold log. by destruct (level_enabled lvl). Qed.

Lemma world_eta w : mk_World (os w) (trace w) = w.
Proof. by destruct w. Qed.

Lemma classifier_calls_app t1 t2 :
  classifier_calls (t1 ++ t2) = classifier_calls t1 ++ classifier_calls t2.
Proof. unfold classifier_calls. apply omap_app. Qed.

(** ** Text extraction *)

(** The page loop reads only: it returns or raises, in the same world. *)
Lemma concat_pages_run pages text w :
  (∃ t, concat_pages pages text w = (Return t, w))
  ∨ (∃ e, concat_pages pages text w = (Raise e, w)).
Proof.
  revert text. induction pages as [|[e|[t|]] rest IH]; intros text; simpl.
  - left. by eexists.
  - right. by eexists.
  - rewrite bind_run. simpl. destruct (Py.truthy t); apply IH.
  - rewrite bind_run. simpl. apply IH.
Qed.

(** [extract_text_from_pdf] always returns a text; it leaves the machine
    as it is and adds at most one error record to the log. *)
Lemma extract_text_from_pdf_run file w :
  ∃ text evs,
    extract_text_from_pdf file w
    = (Return text, mk_World (os w) (trace w ++ evs))
    ∧ classifier_calls evs = [].
Proof.
  unfold extract_text_from_pdf, try_except. rewrite bind_run.
  unfold pdfplumber_open.
  destruct (sys_pdf_open file (os w)) as [e|pages].
  - destruct (is_FileNotFoundError e); rewrite bind_run, log_run; simpl;
      by eexists _, [_].
  - rewrite bind_run.
    destruct (concat_pages_run pages "" w) as [[t ->]|[e ->]].
    + exists (Py.strip t), []. simpl. by rewrite app_nil_r, world_eta.
    + destruct (is_FileNotFoundError e); rewrite bind_run, log_run; simpl;
        by eexists _, [_].
Qed.

(** ** Classification *)

(** What [classify_document] does once the text has been extracted. *)
Lemma classify_document_run (file : string) clf w text w1 :
  extract_text_from_pdf file w = (Return text, w1) →
  classify_document file clf w =
    if decide (text = "") then
      (Return None,
       mk_World (os w1)
         (trace w1 ++
          [EvLog WARNING
             "No text extracted from %s. Skipping classification."
             [AStr file]]))
    else
      let failed e :=
        (Return None,
         mk_World (os w1)
           (trace w1 ++
            [EvClassify text CANDIDATE_LABELS;
             EvLog ERROR "Classification failed for %s: %s"
               [AStr file; AExn e]])) in
      match clf text CANDIDATE_LABELS with
      | inl e => failed e
      | inr r =>
          match labels r, scores r with
          | l :: _, _ :: _ =>
              (Return (Some l),
               mk_World (os w1)
                 (trace w1 ++ [EvClassify text CANDIDATE_LABELS]))
          | _, _ => failed (ExIndexError "list index out of range")
          end
      end.
Proof.
  intros Hex. unfold classify_document. rewrite bind_run, Hex.
  unfold Py.truthy. case_decide as Ht.
  - rewrite bool_decide_eq_true_2 by done. reflexivity.
  - rewrite bool_decide_eq_false_2 by done.
    unfold try_except, call, mbind, M_bind, emit. simpl.
    destruct (clf text CANDIDATE_LABELS) as [e|r]; simpl.
    + by rewrite <-app_assoc.
    + destruct (labels r) as [|l ls]; simpl; [by rewrite <-app_assoc|].
      destruct (scores r) as [|s ss]; simpl; [by rewrite <-app_assoc|].
      done.
Qed.

(** C6. [classify_document] returns [None] when the extracted text is
    empty, without calling the classifier, and when the classifier
    raises; no exception leaves it. Otherwise it returns the first
    element of the ranked label list the classifier produced for the
    three candidate labels. *)
Theorem classify_document_spec (file : string) clf w :
  ∃ text w1,
    extract_text_from_pdf file w = (Return text, w1)
    ∧ (∃ r w', classify_document file clf w = (Return r, w'))
    ∧ (text = "" →
       ∃ w', classify_document file clf w = (Return None, w')
             ∧ os w' = os w
             ∧ classifier_calls (trace w') = classifier_calls (trace w))
    ∧ (text ≠ "" →
       ∀ e, clf text CANDIDATE_LABELS = inl e →
       classify_document file clf w
       = (Return None,
          mk_World (os w1)
            (trace w1 ++
             [EvClassify text CANDIDATE_LABELS;
              EvLog ERROR "Classification failed for %s: %s"
                [AStr file; AExn e]])))
    ∧ (text ≠ "" →
       ∀ r l ls s ss,
         clf text CANDIDATE_LABELS = inr r →
         labels r = l :: ls → scores r = s :: ss →
         classify_document file clf w
         = (Return (Some l),
            mk_World (os w1) (trace w1 ++ [EvClassify text CANDIDATE_LABELS]))).
Proof.
  destruct (extract_text_from_pdf_run file w) as (text & evs & Hex & Hevs).
  eexists text, _. split; [exact Hex|].
  rewrite (classify_document_run _ _ _ _ _ Hex).
  split; [|split; [|split]].
  - case_decide; [by eexists _, _|].
    destruct (clf text CANDIDATE_LABELS) as [e|r]; [by eexists _, _|].
    destruct (labels r), (scores r); by eexists _, _.
  - intros ->. rewrite decide_True by done.
    eexists. split; [done|]. simpl. split; [done|].
    rewrite !classifier_calls_app, Hevs. simpl. by rewrite !app_nil_r.
  - intros Hne e He. by rewrite decide_False, He.
  - intros Hne r l ls s ss Hr Hl Hs. by rewrite decide_False, Hr, Hl, Hs.
Qed.

(** ** Duplicate resolution *)

(** The loop stops at the least free counter. [E] holds the existing
    candidates not yet passed; each turn of the loop removes one. *)
Lemma while_exists_run (E : gset string) fuel base ext c w :
  (∀ m, c ≤ m → candidate base ext m ∈ paths (os w) →
        candidate base ext m ∈ E) →
  (size E < fuel)%nat →
  ∃ n, c ≤ n
       ∧ while_exists fuel base ext c w = (Return n, w)
       ∧ (candidate base ext n ∉ paths (os w))
       ∧ ∀ m, c ≤ m < n → candidate base ext m ∈ paths (os w).
Proof.
  revert E c. induction fuel as [|fuel IH]; intros E c HE Hsz; [lia|].
  simpl. rewrite bind_run. unfold os_path_exists.
  case_bool_decide as Hc.
  - destruct (IH (E ∖ {[candidate base ext c]}) (c + 1))
      as (n & Hn & Hrun & Hfree & Hbusy).
    + intros m Hm Hin. apply elem_of_difference. split; [apply HE; [lia|done]|].
      rewrite not_elem_of_singleton. intros Heq%candidate_inj. lia.
    + assert (HcE : candidate base ext c ∈ E) by (apply HE; [lia|done]).
      rewrite size_difference by (by apply singleton_subseteq_l).
      rewrite size_singleton.
      assert (size E ≠ 0)%nat; [|lia].
      intros Hz%size_empty_inv. by apply (not_elem_of_empty (C := gset string)
                                            (candidate base ext c)), Hz.
    + exists n. split; [lia|]. split; [done|]. split; [done|].
      intros m Hm. destruct (decide (m = c)) as [->|]; [done|].
      apply Hbusy. lia.
  - exists c. split; [lia|]. split; [done|]. split; [done|]. lia.
Qed.

(** Any fuel above the number of existing paths gives the same result:
    the fuel that [resolve_duplicate] hands to the loop does not cut it
    short. *)
Lemma while_exists_fuel fuel fuel' base ext c w :
  (size (paths (os w)) < fuel)%nat →
  (size (paths (os w)) < fuel')%nat →
  while_exists fuel base ext c w = while_exists fuel' base ext c w.
Proof.
  intros Hf Hf'.
  destruct (while_exists_run (paths (os w)) fuel base ext c w)
    as (n & Hn & -> & Hfree & Hbusy); [done..|].
  destruct (while_exists_run (paths (os w)) fuel' base ext c w)
    as (n' & Hn' & -> & Hfree' & Hbusy'); [done..|].
  f_equal. f_equal.
  destruct (Z.lt_trichotomy n n') as [Hlt|[->|Hlt]]; [|done|].
  - destruct Hfree. apply Hbusy'. lia.
  - destruct Hfree'. apply Hbusy. lia.
Qed.

Lemma resolve_duplicate_free target w :
  target ∉ paths (os w) → resolve_duplicate target w = (Return target, w).
Proof.
  intros Hfree. unfold resolve_duplicate, os_path_exists.
  rewrite bind_run. by rewrite bool_decide_eq_false_2.
Qed.

Lemma resolve_duplicate_busy target w :
  target ∈ paths (os w) →
  let base := (OsPath.splitext target).1 in
  let ext := (OsPath.splitext target).2 in
  ∃ n, 1 ≤ n
    ∧ resolve_duplicate target w
      = (Return (candidate base ext n),
         mk_World (os w)
           (trace w ++
            [EvLog INFO "Found duplicate file: %s. Renaming." [AStr target]]))
    ∧ (candidate base ext n ∉ paths (os w))
    ∧ ∀ m, 1 ≤ m < n → candidate base ext m ∈ paths (os w).
Proof.
  intros Hbusy base ext. unfold resolve_duplicate, os_path_exists.
  rewrite bind_run. rewrite bool_decide_eq_true_2 by done.
  rewrite bind_run, log_run. simpl level_enabled. cbv iota.
  fold base ext. destruct (OsPath.splitext target) as [b e]. simpl in base, ext.
  subst base ext. rewrite bind_run. unfold loop_fuel. rewrite bind_run.
  set (w1 := mk_World _ _).
  destruct (while_exists_run (paths (os w1)) (S (size (paths (os w1)))) b e 1 w1)
    as (n & Hn & -> & Hfree & Hbefore); [done|lia|].
  exists n. by repeat split.
Qed.

(** C2. If nothing exists at the target path, duplicate resolution
    returns it unchanged. Otherwise the path is split into stem and
    extension and the result is [stem_n.ext] for the least [n >= 1] for
    which that name is free: an existing [X.pdf] resolves to [X_1.pdf],
    and to [X_2.pdf] when [X_1.pdf] exists as well. The path returned
    does not exist when the call is made. *)
Theorem resolve_duplicate_spec (target : string) w :
  ∃ r w',
    resolve_duplicate target w = (Return r, w')
    ∧ os w' = os w
    ∧ (r ∉ paths (os w))
    ∧ (target ∉ paths (os w) → r = target ∧ w' = w)
    ∧ (target ∈ paths (os w) →
       ∃ n, 1 ≤ n
         ∧ r = candidate (OsPath.splitext target).1
                 (OsPath.splitext target).2 n
         ∧ ∀ m, 1 ≤ m < n →
             candidate (OsPath.splitext target).1
               (OsPath.splitext target).2 m ∈ paths (os w))
    ∧ (∀ x, proper_stem x → target = x +:+ ".pdf" →
       target ∈ paths (os w) →
       (x +:+ "_1.pdf" ∉ paths (os w) → r = x +:+ "_1.pdf")
       ∧ (x +:+ "_1.pdf" ∈ paths (os w) →
          x +:+ "_2.pdf" ∉ paths (os w) → r = x +:+ "_2.pdf")).
Proof.
  destruct (decide (target ∈ paths (os w))) as [Hbusy|Hfree].
  - destruct (resolve_duplicate_busy target w Hbusy)
      as (n & Hn & Hrun & Hnfree & Hbefore).
    eexists _, _. split; [exact Hrun|]. split; [done|]. split; [done|].
    split; [done|]. split; [by intros _; exists n|].
    intros x Hx -> _. rewrite splitext_pdf in Hnfree, Hbefore by done.
    rewrite splitext_pdf by done. simpl in *.
    split.
    + intros H1. destruct (decide (n = 1)) as [->|]; [done|].
      destruct H1. apply (Hbefore 1). lia.
    + intros H1 H2. destruct (decide (n = 2)) as [->|]; [done|].
      destruct (decide (n = 1)) as [->|]; [by destruct Hnfree|].
      destruct H2. apply (Hbefore 2). lia.
  - eexists _, _. split; [by apply resolve_duplicate_free|].
    by repeat split.
Qed.

(** ** Moving a file *)

(** C5. With an absent document type the move operation returns the
    skip outcome and leaves the world as it found it: no directory is
    created, no file is moved, nothing is logged. *)
Theorem move_absent_type_skips (file : string) (date : datetime) w :
  move_file_to_correct_directory file None date w = (Return None, w).
Proof. reflexivity. Qed.

(** The course of [move_file_to_correct_directory] for a known type, in
    terms of what the operating system answers. *)
Lemma move_run (file label : string) (date : datetime) w :
  move_file_to_correct_directory file (Some label) date w =
    let td := target_dir label date in
    match sys_makedirs td (os w) with
    | (inl e, st1) =>
        (Return None,
         mk_World st1
           (trace w ++
            [EvLog ERROR "Failed to create directory %s: %s"
               [AStr td; AExn (ExOSError e)]]))
    | (inr _, st1) =>
        match resolve_duplicate
                (OsPath.join td [OsPath.basename file])
                (mk_World st1 (trace w)) with
        | (Return r, w1) =>
            match sys_move file r (os w1) with
            | (inl e, st2) =>
                (Return None,
                 mk_World st2
                   (trace w1 ++
                    [EvLog ERROR "Failed to move file %s: %s"
                       [AStr file; AExn (ExOSError e)]]))
            | (inr _, st2) =>
                (Return (Some r),
                 mk_World st2
                   (trace w1 ++
                    [EvLog INFO "Moved %s to %s" [AStr file; AStr r]]))
            end
        | (Raise e, w1) => (Raise e, w1)
        | (Diverge, w1) => (Diverge, w1)
        end
    end.
Proof.
  unfold move_file_to_correct_directory. cbv zeta.
  rewrite bind_run. unfold try_except at 1. rewrite bind_run.
  unfold os_makedirs.
  destruct (sys_makedirs (target_dir label date) (os w)) as [[e|[]] st1];
    simpl; [done|].
  rewrite bind_run.
  destruct (resolve_duplicate _ _) as [[r| |] w1]; [|done..].
  unfold try_except, shutil_move. rewrite bind_run.
  by destruct (sys_move file r (os w1)) as [[e|[]] st2].
Qed.

(** With calls that fail with an [OSError] only, the move operation
    returns; a path it returns is not empty. *)
Lemma move_total (file : string) (doc_type : option string) date w :
  ∃ r w', move_file_to_correct_directory file doc_type date w
          = (Return r, w')
          ∧ (∀ p, r = Some p → p ≠ "").
Proof.
  destruct doc_type as [label|]; [|by eexists _, _].
  rewrite move_run. cbv zeta.
  destruct (sys_makedirs _ _) as [[e|[]] st1]; [by eexists _, _|].
  set (target := OsPath.join _ _). set (w0 := mk_World st1 (trace w)).
  assert (∃ r w1, resolve_duplicate target w0 = (Return r, w1) ∧ r ≠ "")
    as (r & w1 & -> & Hr).
  { destruct (decide (target ∈ paths (os w0))) as [Hbusy|Hfree].
    - destruct (resolve_duplicate_busy target w0 Hbusy) as (n & _ & -> & _).
      eexists _, _. split; [done|]. apply string_app_nonempty.
      right. by apply string_app_nonempty; left.
    - rewrite resolve_duplicate_free by done. eexists _, _. split; [done|].
      apply join2_nonempty. left. apply target_dir_nonempty. }
  destruct (sys_move file r (os w1)) as [[e|[]] st2]; eexists _, _;
    (split; [done|]); [done|]. by intros p [= <-].
Qed.

(** ** The per-file loop *)

Lemma classify_document_total (file : string) clf w :
  ∃ r w', classify_document file clf w = (Return r, w').
Proof.
  destruct (extract_text_from_pdf_run file w) as (text & evs & Hex & _).
  rewrite (classify_document_run _ _ _ _ _ Hex).
  case_decide; [by eexists _, _|].
  destruct (clf text CANDIDATE_LABELS) as [e|r]; [by eexists _, _|].
  destruct (labels r), (scores r); by eexists _, _.
Qed.

(** A file the classifier gives no type to is passed over. *)
Lemma process_loop_unclassified clf f rest n w w1 :
  classify_document (OsPath.join INPUT_DIR [f]) clf w = (Return None, w1) →
  process_loop clf (f :: rest) n w = process_loop clf rest n w1.
Proof. intros Hc. simpl. by rewrite bind_run, Hc. Qed.

(** One turn of the loop for a classified file: whatever the move
    returned, the loop goes on with the rest, and the count grows by
    one exactly when the move returned a path. *)
Lemma process_loop_classified clf f rest n w label w1 now st2 r w3 :
  let file_path := OsPath.join INPUT_DIR [f] in
  classify_document file_path clf w = (Return (Some label), w1) →
  sys_now (os w1) = (now, st2) →
  move_file_to_correct_directory file_path (Some label) now
    (mk_World st2
       (trace w1 ++
        [EvLog INFO "Document %s classified as: %s" [AStr f; AStr label]] ++
        [EvPrint (String "013"%char "Sorting document: " +:+ f
                  +:+ " | Classified as: " +:+ label
                  +:+ " | Remaining time: " +:+ Py.str CHECK_INTERVAL
                  +:+ "s")]))
  = (Return r, w3) →
  process_loop clf (f :: rest) n w
  = process_loop clf rest (if r is Some _ then n + 1 else n) w3.
Proof.
  intros file_path Hc Hnow Hmove. simpl. fold file_path.
  rewrite bind_run, Hc. rewrite bind_run, log_run. simpl level_enabled.
  cbv iota. unfold display_sorting_progress, print. rewrite bind_run.
  unfold emit at 1. rewrite bind_run. unfold datetime_now. simpl os.
  rewrite Hnow. simpl trace. rewrite bind_run.
  rewrite <-app_assoc. rewrite Hmove.
  destruct (move_total file_path (Some label) now
              (mk_World st2 (trace w1 ++
                 [EvLog INFO "Document %s classified as: %s"
                    [AStr f; AStr label]] ++
                 [EvPrint (String "013"%char "Sorting document: " +:+ f
                   +:+ " | Classified as: " +:+ label
                   +:+ " | Remaining time: " +:+ Py.str CHECK_INTERVAL
                   +:+ "s")])))
    as (r' & w' & Hm & Hne).
  rewrite Hmove in Hm. injection Hm as <- <-.
  destruct r as [p|]; simpl; [|done].
  unfold Py.truthy. rewrite bool_decide_eq_false_2; [done|]. by apply Hne.
Qed.

(** ** One poll *)

Lemma process_files_run clf w :
  process_files clf w =
    match sys_listdir INPUT_DIR (os w) with
    | inl e =>
        (Return 0,
         mk_World (os w)
           (trace w ++
            [EvLog ERROR "Failed to list input directory: %s"
               [AExn (ExOSError e)]]))
    | inr names =>
        match filter (λ f, Py.endswith f ".pdf" = true) names with
        | [] =>
            (Return 0,
             mk_World (os w)
               (trace w ++
                [EvLog INFO
                   "No PDF files to sort. Checking again in %d seconds."
                   [AInt CHECK_INTERVAL]]))
        | files => process_loop clf files 0 w
        end
    end.
Proof.
  unfold process_files, try_except, os_listdir. rewrite !bind_run.
  destruct (sys_listdir INPUT_DIR (os w)) as [e|names]; simpl; [done|].
  by destruct (filter _ names).
Qed.

(** C8. When listing the input directory fails, the poll counts no
    file: [process_files] returns 0, the machine is left as it was, and
    the only trace of the failure is an error record in the log. *)
Theorem process_files_listing_failure clf w (e : OSError) :
  sys_listdir INPUT_DIR (os w) = inl e →
  process_files clf w
  = (Return 0,
     mk_World (os w)
       (trace w ++
        [EvLog ERROR "Failed to list input directory: %s"
           [AExn (ExOSError e)]])).
Proof. intros He. by rewrite process_files_run, He. Qed.

(** ** Failures of the file system *)

(** C7, amended. When creating the target directory or moving the file
    fails, the move operation returns [None], the value it also returns
    for a skip; the offending path and the error go to the log, not
    into the result. The loop over the files then goes on with the next
    file. *)
Theorem move_failure_is_logged_and_passed_over
    (file label : string) (date : datetime) w :
  (∀ e st1,
     sys_makedirs (target_dir label date) (os w) = (inl e, st1) →
     move_file_to_correct_directory file (Some label) date w
     = (Return None,
        mk_World st1
          (trace w ++
           [EvLog ERROR "Failed to create directory %s: %s"
              [AStr (target_dir label date); AExn (ExOSError e)]])))
  ∧ (∀ st1 r w1 e st2,
       sys_makedirs (target_dir label date) (os w) = (inr (), st1) →
       resolve_duplicate
         (OsPath.join (target_dir label date) [OsPath.basename file])
         (mk_World st1 (trace w)) = (Return r, w1) →
       sys_move file r (os w1) = (inl e, st2) →
       move_file_to_correct_directory file (Some label) date w
       = (Return None,
          mk_World st2
            (trace w1 ++
             [EvLog ERROR "Failed to move file %s: %s"
                [AStr file; AExn (ExOSError e)]])))
  ∧ (∀ clf f rest n w0 l w1 now st2 w3,
       classify_document (OsPath.join INPUT_DIR [f]) clf w0
       = (Return (Some l), w1) →
       sys_now (os w1) = (now, st2) →
       move_file_to_correct_directory (OsPath.join INPUT_DIR [f]) (Some l)
         now
         (mk_World st2
            (trace w1 ++
             [EvLog INFO "Document %s classified as: %s" [AStr f; AStr l]] ++
             [EvPrint (String "013"%char "Sorting document: " +:+ f
                       +:+ " | Classified as: " +:+ l
                       +:+ " | Remaining time: " +:+ Py.str CHECK_INTERVAL
                       +:+ "s")]))
       = (Return None, w3) →
       process_loop clf (f :: rest) n w0 = process_loop clf rest n w3).
Proof.
  split; [|split].
  - intros e st1 He. by rewrite move_run; cbv zeta; rewrite He.
  - intros st1 r w1 e st2 Hmk Hres Hmv.
    by rewrite move_run; cbv zeta; rewrite Hmk, Hres, Hmv.
  - intros clf f rest n w0 l w1 now st2 w3 Hc Hnow Hm.
    by rewrite (process_loop_classified _ _ _ _ _ _ _ _ _ _ _ Hc Hnow Hm).
Qed.


(** ** Setting up the tree *)

Lemma os_makedirs_keeps p : keeps_dirs (os_makedirs p).
Proof.
  intros w r w' q. unfold os_makedirs.
  destruct (sys_makedirs p (os w)) as [[e|[]] st'] eqn:E; intros [= _ <-];
    simpl; by eapply makedirs_mono.
Qed.

Lemma os_makedirs_creates p w w' :
  os_makedirs p w = (Return (), w') → isdir (os w') p = true.
Proof.
  unfold os_makedirs.
  destruct (sys_makedirs p (os w)) as [[e|[]] st'] eqn:E; [done|].
  intros [= <-]. simpl. by eapply makedirs_isdir.
Qed.

Lemma os_makedirs_existing p w :
  isdir (os w) p = true → os_makedirs p w = (Return (), w).
Proof.
  intros Hp. unfold os_makedirs. rewrite makedirs_existing by done.
  by rewrite world_eta.
Qed.

Lemma for_keeps {A} (l : list A) (body : A → M St unit) :
  (∀ x, keeps_dirs (body x)) → keeps_dirs (for_ l body).
Proof.
  intros Hb. induction l as [|x l IH]; intros w r w' q; simpl.
  - by intros [= _ <-].
  - rewrite bind_run. destruct (body x w) as [[[]|e|] w1] eqn:E.
    + intros Hl Hq. eapply IH; [exact Hl|]. by eapply Hb.
    + intros [= _ <-] Hq. by eapply Hb.
    + intros [= _ <-] Hq. by eapply Hb.
Qed.

(** When a loop has run to its end, what each turn created is there. *)
Lemma for_creates {A} (l : list A) (body : A → M St unit)
    (D : A → string → Prop) :
  (∀ x, keeps_dirs (body x)) →
  (∀ x w w' q, x ∈ l → body x w = (Return (), w') → D x q →
               isdir (os w') q = true) →
  ∀ w w' x q, for_ l body w = (Return (), w') → x ∈ l → D x q →
              isdir (os w') q = true.
Proof.
  intros Hk. induction l as [|x0 l IH]; intros Hb w w' x q; simpl.
  - intros _ Hx. by apply elem_of_nil in Hx.
  - rewrite bind_run. destruct (body x0 w) as [[[]|e|] w1] eqn:E; [|done..].
    intros Hl Hx Hq. apply elem_of_cons in Hx as [->|Hx].
    + eapply (for_keeps l body Hk); [exact Hl|].
      eapply Hb; [left|exact E|exact Hq].
    + eapply IH; [|exact Hl|exact Hx|exact Hq].
      intros ????? ; apply Hb. by right.
Qed.

(** A loop whose turns all leave the world as it is leaves it as it is. *)
Lemma for_idle {A} (l : list A) (body : A → M St unit) w :
  (∀ x, x ∈ l → body x w = (Return (), w)) → for_ l body w = (Return (), w).
Proof.
  induction l as [|x l IH]; intros Hb; [done|]. simpl.
  rewrite bind_run, Hb by left. apply IH. intros y Hy. apply Hb. by right.
Qed.

(** C9. Once [setup_directory_structure] has run, the directory
    [<output_root>/Type/Year/Month_M/Week_W] exists for each of the three
    type directories, each year from 2020 to 2030, each month from 1 to
    12 and each week from 1 to 5. Directories that are already there are
    left alone: on a tree that is complete the four loops succeed
    without changing anything. *)
Theorem setup_directory_structure_spec w :
  (∀ w', setup_directory_structure w = (Return (), w') →
     ∀ T y m wk,
       T ∈ DOCUMENT_TYPES → 2020 ≤ y ≤ 2030 → 1 ≤ m ≤ 12 → 1 ≤ wk ≤ 5 →
       isdir (os w')
         (OsPath.join OUTPUT_DIR
            [T; Py.str y; "Month_" +:+ Py.str m; "Week_" +:+ Py.str wk])
       = true)
  ∧ ((∀ T y m wk,
        T ∈ DOCUMENT_TYPES → 2020 ≤ y ≤ 2030 → 1 ≤ m ≤ 12 → 1 ≤ wk ≤ 5 →
        isdir (os w)
          (OsPath.join OUTPUT_DIR
             [T; Py.str y; "Month_" +:+ Py.str m; "Week_" +:+ Py.str wk])
        = true) →
     setup_directory_structure w
     = (os_makedirs INPUT_DIR;;
        log INFO "Directory structure initialized" []) w)
  ∧ (plain_end OUTPUT_DIR →
     ∀ T y m wk, T ∈ DOCUMENT_TYPES →
       OsPath.join OUTPUT_DIR
         [T; Py.str y; "Month_" +:+ Py.str m; "Week_" +:+ Py.str wk]
       = planned_dir OUTPUT_DIR T y m wk).
Proof.
  split; [|split].
  - intros w' Hrun T y m wk HT Hy Hm Hwk.
    unfold setup_directory_structure in Hrun. rewrite bind_run in Hrun.
    destruct (for_ DOCUMENT_TYPES _ w) as [[[]|e|] w1] eqn:Hloops; [|done..].
    rewrite bind_run in Hrun.
    destruct (os_makedirs INPUT_DIR w1) as [[[]|e|] w2] eqn:Hin; [|done..].
    rewrite log_run in Hrun. injection Hrun as <-. simpl os.
    eapply os_makedirs_keeps; [exact Hin|].
    eapply for_creates with (x := T)
              (D := λ T q, ∃ y m wk, 2020 ≤ y ≤ 2030 ∧ 1 ≤ m ≤ 12 ∧ 1 ≤ wk ≤ 5 ∧
                 q = OsPath.join OUTPUT_DIR
                       [T; Py.str y; "Month_" +:+ Py.str m;
                        "Week_" +:+ Py.str wk]);
      [| |exact Hloops|exact HT|by exists y, m, wk].
    { intros ?. repeat (apply for_keeps; intros ?). apply os_makedirs_keeps. }
    clear. intros T w w' q _ Hrun (y & m & wk & Hy & Hm & Hwk & ->).
    eapply for_creates with (x := y)
              (D := λ y q, ∃ m wk, 1 ≤ m ≤ 12 ∧ 1 ≤ wk ≤ 5 ∧
                 q = OsPath.join OUTPUT_DIR
                       [T; Py.str y; "Month_" +:+ Py.str m;
                        "Week_" +:+ Py.str wk]);
      [| |exact Hrun|apply elem_of_range; lia|by exists m, wk].
    { intros ?. repeat (apply for_keeps; intros ?). apply os_makedirs_keeps. }
    clear. intros y w w' q _ Hrun (m & wk & Hm & Hwk & ->).
    eapply for_creates with (x := m)
              (D := λ m q, ∃ wk, 1 ≤ wk ≤ 5 ∧
                 q = OsPath.join OUTPUT_DIR
                       [T; Py.str y; "Month_" +:+ Py.str m;
                        "Week_" +:+ Py.str wk]);
      [| |exact Hrun|apply elem_of_range; lia|by exists wk].
    { intros ?. repeat (apply for_keeps; intros ?). apply os_makedirs_keeps. }
    clear. intros m w w' q _ Hrun (wk & Hwk & ->).
    eapply for_creates with (x := wk)
              (D := λ wk q, q = OsPath.join OUTPUT_DIR
                       [T; Py.str y; "Month_" +:+ Py.str m;
                        "Week_" +:+ Py.str wk]);
      [| |exact Hrun|apply elem_of_range; lia|done].
    { intros ?. apply os_makedirs_keeps. }
    clear. intros wk w w' q _ Hrun ->. cbv beta zeta in Hrun.
    by eapply os_makedirs_creates.
  - intros Htree. unfold setup_directory_structure.
    rewrite bind_run. rewrite for_idle; [done|].
    intros T HT. apply for_idle. intros y Hy%elem_of_range.
    apply for_idle. intros m Hm%elem_of_range.
    apply for_idle. intros wk Hwk%elem_of_range.
    apply os_makedirs_existing. apply Htree; [done|lia..].
  - intros Hroot T y m wk HT. apply join_plain; [done|..];
      unfold DOCUMENT_TYPES in HT;
      repeat (apply elem_of_cons in HT as [->|HT]; [try done; by exists "s"%char|]);
      by apply elem_of_nil in HT.
Qed.

End Properties.


(** ** The properties on the in-memory machine *)

Lemma resolve_duplicate_spec_witness :
  fst (@resolve_duplicate _ mem_os "out/X.pdf" (world0 duplicates_os))
  = Return "out/X_2.pdf".
Proof.
  destruct (@resolve_duplicate_spec _ mem_os "out/X.pdf" (world0 duplicates_os))
    as (r & w' & Hrun & _ & _ & _ & _ & Hex).
  rewrite Hrun. cbn [fst]. f_equal.
  refine (proj2 (Hex "out/X" _ _ _) _ _).
  - exists 4%nat. split; [reflexivity|]. split; [simpl; lia|discriminate].
  - reflexivity.
  - refine (bool_decide_unpack _ _). vm_compute. exact I.
  - refine (bool_decide_unpack _ _). vm_compute. exact I.
  - refine (bool_decide_unpack _ _). vm_compute. exact I.
Defined.

Lemma classify_document_spec_witness :
  fst (@classify_document _ mem_os "./incoming_documents/a.pdf"
         invoice_classifier (world0 sample_os))
  = Return (Some "Invoice").
Proof.
  destruct (@classify_document_spec _ mem_os "./incoming_documents/a.pdf"
              invoice_classifier (world0 sample_os))
    as (text & w1 & Hex & _ & _ & _ & Hok).
  vm_compute in Hex. injection Hex as <- <-.
  rewrite (Hok ltac:(discriminate) _ "Invoice" _ _ _ eq_refl eq_refl eq_refl).
  reflexivity.
Defined.

(** C7, as stated, fails: the value returned on a failure is [None]
    whatever the path and the error were, so that neither can be read
    off it. Under a locked output root the directories for an invoice and
    for a report both fail to be created, and the two calls return the
    same value. *)
Lemma move_failure_value_carries_no_path :
  ¬ ∃ path_of : option string → string,
      ∀ (label : string) (e : OSError) (st1 : MemOS) (r : option string)
        (w' : World MemOS),
        sys_makedirs (@target_dir default_config label june15) locked_os
        = (inl e, st1) →
        @move_file_to_correct_directory _ mem_os default_config
          "./incoming_documents/a.pdf" (Some label) june15 (world0 locked_os)
        = (Return r, w') →
        path_of r = @target_dir default_config label june15.
Proof.
  intros (path_of & Hall).
  assert (H1 : path_of None = @target_dir default_config "Invoice" june15).
  { eapply Hall; vm_compute; reflexivity. }
  assert (H2 : path_of None = @target_dir default_config "Report" june15).
  { eapply Hall; vm_compute; reflexivity. }
  rewrite H1 in H2. vm_compute in H2. discriminate H2.
Qed.

Lemma move_failure_is_logged_and_passed_over_witness :
  fst (@move_file_to_correct_directory _ mem_os default_config
         "./incoming_documents/a.pdf" (Some "Invoice") june15
         (world0 locked_os))
  = Return None
  ∧ fst (@move_file_to_correct_directory _ mem_os default_config
           "./incoming_documents/b.pdf" (Some "Invoice") june15
           (world0 sample_os))
    = Return None
  ∧ @process_loop _ mem_os default_config invoice_classifier
      ["a.pdf"; "c.pdf"] 0 (world0 locked_os)
    = @process_loop _ mem_os default_config invoice_classifier
        ["c.pdf"] 0
        (snd (@process_loop _ mem_os default_config invoice_classifier
                ["a.pdf"] 0 (world0 locked_os))).
Proof.
  destruct (@move_failure_is_logged_and_passed_over _ mem_os default_config
              "./incoming_documents/a.pdf" "Invoice" june15 (world0 locked_os))
    as (Hmk & _ & Hloop).
  destruct (@move_failure_is_logged_and_passed_over _ mem_os default_config
              "./incoming_documents/b.pdf" "Invoice" june15 (world0 sample_os))
    as (_ & Hmv & _).
  split; [|split].
  - erewrite Hmk; [reflexivity|]. vm_compute. reflexivity.
  - erewrite Hmv; [reflexivity|..]; vm_compute; reflexivity.
  - erewrite (Hloop invoice_classifier "a.pdf" ["c.pdf"] 0 (world0 locked_os));
      [|vm_compute; reflexivity..].
    vm_compute. reflexivity.
Defined.


Lemma process_files_listing_failure_witness :
  @process_files _ mem_os default_config invoice_classifier (world0 empty_os)
  = (Return 0,
     mk_World empty_os
       [EvLog ERROR "Failed to list input directory: %s"
          [AExn (ExOSError
                   (mk_OSError (Some ENOENT) "No such file or directory"))]]).
Proof.
  exact (@process_files_listing_failure _ mem_os default_config
           invoice_classifier (world0 empty_os) _ eq_refl).
Defined.

Lemma setup_directory_structure_spec_witness :
  isdir
    (os (snd (@setup_directory_structure _ mem_os default_config
                (world0 empty_os))))
    "./sorted_documents/Reports/2030/Month_12/Week_5" = true.
Proof.
  destruct (@setup_directory_structure_spec _ mem_os default_config
              (world0 empty_os)) as (Hcreated & _ & _).
  refine (Hcreated _ _ "Reports" 2030 12 5 _ _ _ _).
  - apply pair_eta_fst. vm_compute. reflexivity.
  - refine (bool_decide_unpack _ _). vm_compute. exact I.
  - lia.
  - lia.
  - lia.
Defined.

(** ** Runs on the in-memory machine *)

Example str_examples :
  Py.str 2024 = "2024" ∧ Py.str 0 = "0" ∧ Py.str (-7) = "-7".
Proof. by vm_compute. Qed.

Example splitext_examples :
  OsPath.splitext "a/b.c/X.pdf" = ("a/b.c/X", ".pdf")
  ∧ OsPath.splitext "a/b.c/.pdf" = ("a/b.c/.pdf", "")
  ∧ OsPath.splitext "..pdf" = ("..pdf", "")
  ∧ OsPath.splitext "a.tar.gz" = ("a.tar", ".gz")
  ∧ OsPath.splitext "a.b/c" = ("a.b/c", "").
Proof. by vm_compute. Qed.

Example join_examples :
  OsPath.join "out" ["Invoices"; "2024"] = "out/Invoices/2024"
  ∧ OsPath.join "out/" ["Invoices"] = "out/Invoices"
  ∧ OsPath.join "" ["Invoices"] = "Invoices"
  ∧ OsPath.join "out" ["/etc"; "x"] = "/etc/x"
  ∧ OsPath.basename "./incoming_documents/a.pdf" = "a.pdf".
Proof. by vm_compute. Qed.

Example target_dir_examples :
  @target_dir default_config "Invoice" june15
  = "./sorted_documents/Invoices/2024/Month_6/Week_3"
  ∧ @target_dir default_config "Foo" (mk_datetime 2025 12 31)
    = "./sorted_documents/Foos/2025/Month_12/Week_5"
  ∧ @target_dir default_config "/x" june15 = "/xs/2024/Month_6/Week_3".
Proof. by vm_compute. Qed.

(** One poll over an input directory that holds [a.pdf], classified as an
    invoice on 2024-06-15: the file ends up in
    [Invoices/2024/Month_6/Week_3] and the poll counts one file. *)
Example poll_moves_the_invoice :
  let run := @process_files _ mem_os default_config invoice_classifier
               (world0 sample_os) in
  fst run = Return 1
  ∧ nodes (os (snd run))
      !! "./sorted_documents/Invoices/2024/Month_6/Week_3/a.pdf"
    = Some (one_page "invoice text")
  ∧ nodes (os (snd run)) !! "./incoming_documents/a.pdf" = None.
Proof. by vm_compute. Qed.

(** The same poll when the place is taken: the new file becomes
    [a_1.pdf] and the older one stays as it is. *)
Example poll_renames_a_duplicate :
  let run := @process_files _ mem_os default_config invoice_classifier
               (world0 taken_slot_os) in
  fst run = Return 1
  ∧ nodes (os (snd run))
      !! "./sorted_documents/Invoices/2024/Month_6/Week_3/a_1.pdf"
    = Some (one_page "invoice text")
  ∧ nodes (os (snd run))
      !! "./sorted_documents/Invoices/2024/Month_6/Week_3/a.pdf"
    = Some (one_page "an older invoice").
Proof. by vm_compute. Qed.

(** A file without text, and a classifier that fails: nothing is moved
    and the poll counts no file. *)
Example poll_skips_what_it_cannot_classify :
  @process_files _ mem_os default_config invoice_classifier (world0 blank_os)
  = (Return 0,
     mk_World blank_os
       [EvLog WARNING "No text extracted from %s. Skipping classification."
          [AStr "./incoming_documents/a.pdf"]])
  ∧ @process_files _ mem_os default_config broken_classifier
      (world0 sample_os)
    = (Return 0,
       mk_World sample_os
         [EvClassify "invoice text" CANDIDATE_LABELS;
          EvLog ERROR "Classification failed for %s: %s"
            [AStr "./incoming_documents/a.pdf";
             AExn (ExOther "RuntimeError" "Model error")]]).
Proof. by vm_compute. Qed.

(** The setup creates 3 * 11 * 12 * 5 leaf directories. *)
Example setup_leaves :
  length
    (filter (λ p, Py.startswith (OsPath.basename p) "Week_" = true)
       (elements
          (paths (os (snd (@setup_directory_structure _ mem_os default_config
                             (world0 empty_os)))))))
  = 1980%nat.
Proof. by vm_compute. Qed.


(** * Further properties *)

(** ** Weeks, labels and target directories *)

(** X1. For a day of the month from 1 on, the week number lies between 1
    and 5, and a later day never has a smaller week number. *)
Theorem get_week_of_month_range (d1 d2 : datetime) :
  (1 ≤ day d1 → 1 ≤ get_week_of_month d1 ≤ 5)
  ∧ (day d1 ≤ day d2 → get_week_of_month d1 ≤ get_week_of_month d2).
Proof.
  unfold get_week_of_month. split.
  - intros Hd.
    assert (0 ≤ (day d1 - 1) `div` 7) by (apply Z.div_pos; lia). lia.
  - intros Hle.
    assert ((day d1 - 1) `div` 7 ≤ (day d2 - 1) `div` 7)
      by (apply Z.div_le_mono; lia).
    lia.
Qed.

Lemma get_week_of_month_range_witness :
  1 ≤ get_week_of_month (mk_datetime 2024 2 29) ≤ 5
  ∧ get_week_of_month (mk_datetime 2024 2 14)
    ≤ get_week_of_month (mk_datetime 2024 2 29).
Proof.
  destruct (get_week_of_month_range (mk_datetime 2024 2 14)
              (mk_datetime 2024 2 29)) as [_ Hmono].
  destruct (get_week_of_month_range (mk_datetime 2024 2 29)
              (mk_datetime 2024 2 29)) as [Hrange _].
  split; [apply Hrange; simpl; lia | apply Hmono; simpl; lia].
Defined.

(** X2. The lookup table agrees with its fallback: every label, listed or
    not, is mapped to the label followed by "s". Two different labels
    therefore never share a directory name. *)
Theorem dir_name_appends_s :
  (∀ label, dir_name label = label +:+ "s")
  ∧ (∀ l1 l2, l1 ≠ l2 → dir_name l1 ≠ dir_name l2).
Proof.
  assert (Hs : ∀ label, dir_name label = label +:+ "s").
  { intros label. unfold dir_name. rewrite LABEL_TO_DIR_lookup.
    repeat (case_decide; [by simplify_eq|]). done. }
  split; [done|]. intros l1 l2 Hne. rewrite !Hs.
  intros Heq. by apply Hne, (string_app_inv_tail l1 l2 "s").
Qed.

Lemma dir_name_appends_s_witness : dir_name "Invoice" ≠ dir_name "Invoices".
Proof. apply (proj2 dir_name_appends_s). discriminate. Defined.

(** *** The parts of a target directory *)

Lemma join2_plain_end a b : plain_end b → plain_end (OsPath.join2 a b).
Proof.
  intros Hb. unfold OsPath.join2.
  destruct (Py.startswith b "/"); [done|].
  destruct (_ || _); [by apply plain_end_app|].
  by apply plain_end_app, plain_end_app.
Qed.

Lemma has_char_app c s t : has_char c (s +:+ t) = has_char c s || has_char c t.
Proof.
  induction s as [|a s IH]; [done|].
  rewrite string_app_cons. simpl. rewrite IH. by rewrite orb_assoc.
Qed.

Lemma pretty_N_char_digit x : has_char "/" (String (pretty_N_char x) "") = false.
Proof. unfold pretty_N_char. by repeat case_match. Qed.

Lemma pretty_N_go_no_sep x s :
  has_char "/" s = false → has_char "/" (pretty_N_go x s) = false.
Proof.
  revert s. induction (N.lt_wf_0 x) as [x _ IH]; intros s Hs.
  destruct (decide (x = 0)%N) as [->|Hx]; [by rewrite pretty_N_go_0|].
  rewrite pretty_N_go_step by lia. apply IH; [apply N.div_lt; lia|].
  change (String ?a s) with (String a "" +:+ s).
  by rewrite has_char_app, pretty_N_char_digit, Hs.
Qed.

(** A decimal numeral holds no separator. *)
Lemma str_no_sep n : has_char "/" (Py.str n) = false.
Proof.
  assert (HN : ∀ x : N, has_char "/" (pretty x) = false).
  { intros x. unfold pretty, pretty_N. case_decide; [done|].
    by apply pretty_N_go_no_sep. }
  destruct n as [|p|p]; [done|apply (HN (N.pos p))|].
  change (Py.str (Z.neg p)) with ("-" +:+ pretty (N.pos p)).
  by rewrite has_char_app, HN.
Qed.

(** Two strings that agree up to their first separator. *)
Lemma split_at_sep a a' r r' :
  has_char "/" a = false → has_char "/" a' = false →
  a +:+ String "/" r = a' +:+ String "/" r' → a = a' ∧ r = r'.
Proof.
  revert a'. induction a as [|x a IH]; intros [|x' a'] Ha Ha'.
  - rewrite !string_app_nil_l. by intros [= ->].
  - rewrite string_app_nil_l, string_app_cons. intros [= <- _].
    by simpl in Ha'.
  - rewrite string_app_nil_l, string_app_cons. intros [= -> _].
    by simpl in Ha.
  - rewrite !string_app_cons. intros [= -> Heq].
    simpl in Ha, Ha'. apply orb_false_iff in Ha as [_ Ha].
    apply orb_false_iff in Ha' as [_ Ha'].
    destruct (IH a' Ha Ha' Heq) as [-> ->]. done.
Qed.

(** The target directory, whatever the root and the label. *)
Lemma target_dir_formula `{Config} (label : string) (d : datetime) :
  target_dir label d
  = OsPath.join2 OUTPUT_DIR (dir_name label)
      +:+ "/" +:+ Py.str (year d)
      +:+ "/Month_" +:+ Py.str (month d)
      +:+ "/Week_" +:+ Py.str (get_week_of_month d).
Proof.
  unfold target_dir, OsPath.join. simpl.
  pose proof (join2_plain_end OUTPUT_DIR _ (dir_name_plain_end label)) as H0.
  rewrite (join2_plain _ (Py.str (year d))); [|done|apply str_no_lead].
  rewrite (join2_plain _ ("Month_" +:+ Py.str (month d)));
    [|by rewrite <-!string_app_assoc; apply plain_end_app, str_plain_end|done].
  rewrite (join2_plain _ ("Week_" +:+ Py.str (get_week_of_month d)));
    [|by rewrite <-!string_app_assoc; apply plain_end_app, str_plain_end|done].
  by rewrite !string_app_assoc.
Qed.

Lemma target_dir_plain_end `{Config} (label : string) (d : datetime) :
  plain_end (target_dir label d).
Proof.
  rewrite target_dir_formula, <-!string_app_assoc.
  apply plain_end_app, str_plain_end.
Qed.

(** X3. Whatever the output root and the label, the target directory is
    the join of root and type directory followed by [/<year>],
    [/Month_<month>] and [/Week_<week>]. With the same settings and label,
    two dates lead to the same directory exactly when they agree on year,
    month and week of the month. *)
Theorem target_dir_parts `{Config} (label : string) (d1 d2 : datetime) :
  target_dir label d1
  = OsPath.join2 OUTPUT_DIR (dir_name label)
      +:+ "/" +:+ Py.str (year d1)
      +:+ "/Month_" +:+ Py.str (month d1)
      +:+ "/Week_" +:+ Py.str (get_week_of_month d1)
  ∧ (target_dir label d1 = target_dir label d2
     ↔ year d1 = year d2 ∧ month d1 = month d2
       ∧ get_week_of_month d1 = get_week_of_month d2).
Proof.
  split; [apply target_dir_formula|]. rewrite !target_dir_formula. split.
  - intros Heq. apply String.app_inj in Heq.
    apply (String.app_inj "/") in Heq.
    apply split_at_sep in Heq as [Hy Heq]; [|apply str_no_sep..].
    apply (String.app_inj "Month_") in Heq.
    apply split_at_sep in Heq as [Hm Heq]; [|apply str_no_sep..].
    apply (String.app_inj "Week_") in Heq.
    by apply str_inj in Hy, Hm, Heq.
  - by intros (-> & -> & ->).
Qed.

Lemma target_dir_parts_witness :
  @target_dir default_config "Invoice" (mk_datetime 2024 6 15)
  = @target_dir default_config "Invoice" (mk_datetime 2024 6 21).
Proof.
  apply (@target_dir_parts default_config "Invoice"
           (mk_datetime 2024 6 15) (mk_datetime 2024 6 21)).
  repeat split; reflexivity.
Defined.

(** ** White space *)

Lemma lstrip_all_space s : all_space s = true → Py.lstrip s = "".
Proof.
  induction s as [|a s IH]; [done|]. simpl.
  intros [Ha Hs]%andb_true_iff. rewrite Ha. by apply IH.
Qed.

Lemma strip_all_space s : all_space s = true → Py.strip s = "".
Proof.
  intros Hs. unfold Py.strip. rewrite (lstrip_all_space s Hs). reflexivity.
Qed.

Lemma all_space_app s t : all_space (s +:+ t) = all_space s && all_space t.
Proof.
  induction s as [|a s IH]; [done|].
  rewrite string_app_cons. simpl. by rewrite IH, andb_assoc.
Qed.

Lemma last_char_None s : last_char s = None → s = "".
Proof.
  induction s as [|a s IH]; [done|]. simpl.
  destruct s; [done|]. intros Hs. by specialize (IH Hs).
Qed.

Lemma lstrip_first s a :
  first_char (Py.lstrip s) = Some a → Py.isspace a = false.
Proof.
  induction s as [|b s IH]; [done|]. simpl.
  destruct (Py.isspace b) eqn:Hb; [done|]. simpl. by intros [= <-].
Qed.

Lemma lstrip_last s : Py.lstrip s ≠ "" → last_char (Py.lstrip s) = last_char s.
Proof.
  induction s as [|b s IH]; [done|]. simpl.
  destruct (Py.isspace b); [|done].
  intros Hne. rewrite IH by done. destruct s; [done|done].
Qed.

Lemma last_char_rev_app s acc :
  last_char (String.rev_app s acc)
  = match acc with "" => first_char s | _ => last_char acc end.
Proof.
  revert acc. induction s as [|a s IH]; intros acc; simpl.
  - by destruct acc.
  - rewrite IH. by destruct acc.
Qed.

Lemma first_char_rev_app s acc :
  first_char (String.rev_app s acc)
  = match last_char s with Some c => Some c | None => first_char acc end.
Proof.
  revert acc. induction s as [|a s IH]; intros acc; [done|].
  simpl String.rev_app. rewrite IH. simpl.
  destruct s as [|b s]; [done|].
  destruct (last_char (String b s)) eqn:E; [done|].
  by apply last_char_None in E.
Qed.

(** What [strip] returns has no white space at either end. *)
Lemma strip_ends s :
  (∀ a, first_char (Py.strip s) = Some a → Py.isspace a = false)
  ∧ (∀ a, last_char (Py.strip s) = Some a → Py.isspace a = false).
Proof.
  unfold Py.strip, String.rev. split; intros a.
  - rewrite first_char_rev_app.
    destruct (last_char (Py.lstrip _)) as [c|] eqn:E; [|done].
    intros [= ->]. rewrite lstrip_last in E by (by intros Hx; rewrite Hx in E).
    rewrite last_char_rev_app in E. by apply lstrip_first in E.
  - rewrite last_char_rev_app. apply lstrip_first.
Qed.

(** ** More on text extraction and classification *)

Section MoreProperties.

Context {St : Type} {OS : OperatingSystem St} {cfg : Config}.

Implicit Types (w : World St) (clf : Classifier).

#[local] Arguments OsPath.join : simpl never.

Lemma concat_pages_texts pages text w :
  Forall readable pages →
  concat_pages pages text w = (Return (text +:+ page_texts pages), w).
Proof.
  intros Hp. revert text.
  induction Hp as [|[e|[t|]] rest Hpage _ IH]; intros text; simpl.
  - by rewrite string_app_nil_r.
  - by destruct Hpage.
  - rewrite bind_run. simpl. unfold Py.truthy. case_bool_decide as Ht; simpl.
    + subst t. by rewrite IH.
    + by rewrite IH, string_app_assoc.
  - rewrite bind_run. simpl. apply IH.
Qed.

Lemma concat_pages_raises before e after text w :
  Forall readable before →
  concat_pages (before ++ inl e :: after) text w = (Raise e, w).
Proof.
  intros Hp. revert text.
  induction Hp as [|[e'|[t|]] rest Hpage _ IH]; intros text; simpl.
  - done.
  - by destruct Hpage.
  - rewrite bind_run. simpl. destruct (Py.truthy t); apply IH.
  - rewrite bind_run. simpl. apply IH.
Qed.

(** The text of a file all of whose pages can be read. *)
Lemma extract_text_from_pdf_readable (file : string) (pages : Pages) w :
  sys_pdf_open file (os w) = inr pages →
  Forall readable pages →
  extract_text_from_pdf file w = (Return (Py.strip (page_texts pages)), w).
Proof.
  intros Hopen Hp. unfold extract_text_from_pdf, try_except.
  rewrite bind_run. unfold pdfplumber_open. rewrite Hopen.
  rewrite bind_run, concat_pages_texts by done. by rewrite string_app_nil_l.
Qed.

(** X4. When the file opens and every page can be read,
    [extract_text_from_pdf] returns the texts of the pages, joined in page
    order and stripped of surrounding white space; pages without text add
    nothing; the world is left as it was. *)
Theorem extract_text_from_pdf_joins_pages (file : string) (pages : Pages) w :
  sys_pdf_open file (os w) = inr pages →
  Forall readable pages →
  extract_text_from_pdf file w = (Return (Py.strip (page_texts pages)), w)
  ∧ (∀ a, first_char (Py.strip (page_texts pages)) = Some a →
          Py.isspace a = false)
  ∧ (∀ a, last_char (Py.strip (page_texts pages)) = Some a →
          Py.isspace a = false).
Proof.
  intros Hopen Hp. split; [by apply extract_text_from_pdf_readable|].
  apply strip_ends.
Qed.

(** X5. When the file cannot be opened, or one of its pages cannot be
    read, [extract_text_from_pdf] returns the empty text (what earlier
    pages gave is dropped) and logs one error record, leaving the machine as
    it was. *)
Theorem extract_text_from_pdf_failure (file : string) w :
  (∀ e, sys_pdf_open file (os w) = inl e →
        extract_text_from_pdf file w
        = (Return "",
           mk_World (os w) (trace w ++ [extraction_error file e])))
  ∧ (∀ before e after,
       sys_pdf_open file (os w) = inr (before ++ inl e :: after) →
       Forall readable before →
       extract_text_from_pdf file w
       = (Return "",
          mk_World (os w) (trace w ++ [extraction_error file e]))).
Proof.
  split.
  - intros e Hopen. unfold extract_text_from_pdf, try_except.
    rewrite bind_run. unfold pdfplumber_open. rewrite Hopen.
    unfold extraction_error.
    by destruct (is_FileNotFoundError e); rewrite bind_run, log_run.
  - intros before e after Hopen Hp. unfold extract_text_from_pdf, try_except.
    rewrite bind_run. unfold pdfplumber_open. rewrite Hopen.
    rewrite bind_run, concat_pages_raises by done.
    unfold extraction_error.
    by destruct (is_FileNotFoundError e); rewrite bind_run, log_run.
Qed.

(** The text [extract_text_from_pdf] returns is always a stripped one. *)
Lemma extract_text_from_pdf_stripped (file : string) w :
  ∃ raw evs,
    extract_text_from_pdf file w
    = (Return (Py.strip raw), mk_World (os w) (trace w ++ evs))
    ∧ classifier_calls evs = [].
Proof.
  unfold extract_text_from_pdf, try_except. rewrite bind_run.
  unfold pdfplumber_open.
  destruct (sys_pdf_open file (os w)) as [e|pages].
  - destruct (is_FileNotFoundError e); rewrite bind_run, log_run; simpl;
      by eexists "", [_].
  - rewrite bind_run.
    destruct (concat_pages_run pages "" w) as [[t ->]|[e ->]].
    + exists t, []. simpl. by rewrite app_nil_r, world_eta.
    + destruct (is_FileNotFoundError e); rewrite bind_run, log_run; simpl;
        by eexists "", [_].
Qed.

(** X6. A document whose pages hold nothing but white space is passed
    over like one without text: [classify_document] returns [None], logs
    the warning and does not call the classifier. *)
Theorem classify_document_blank (file : string) (pages : Pages) clf w :
  sys_pdf_open file (os w) = inr pages →
  Forall readable pages →
  all_space (page_texts pages) = true →
  classify_document file clf w
  = (Return None,
     mk_World (os w)
       (trace w ++
        [EvLog WARNING "No text extracted from %s. Skipping classification."
           [AStr file]])).
Proof.
  intros Hopen Hp Hblank.
  rewrite (classify_document_run file clf w "" w).
  - done.
  - rewrite (extract_text_from_pdf_readable file pages) by done.
    by rewrite strip_all_space.
Qed.

(** X7. A classifier result whose label list or score list is empty gives
    no label: [classify_document] catches the [IndexError], logs it and
    returns [None]. *)
Theorem classify_document_unranked (file text : string) clf w w1 r :
  extract_text_from_pdf file w = (Return text, w1) →
  text ≠ "" →
  clf text CANDIDATE_LABELS = inr r →
  labels r = [] ∨ scores r = [] →
  classify_document file clf w
  = (Return None,
     mk_World (os w1)
       (trace w1 ++
        [EvClassify text CANDIDATE_LABELS;
         EvLog ERROR "Classification failed for %s: %s"
           [AStr file; AExn (ExIndexError "list index out of range")]])).
Proof.
  intros Hex Hne Hclf Hempty.
  rewrite (classify_document_run _ _ _ _ _ Hex), decide_False, Hclf by done.
  destruct Hempty as [-> | ->]; [done|]. by destruct (labels r).
Qed.

(** What [classify_document] does to the machine and to the trace. *)
Lemma classify_document_trace (file : string) clf w :
  let w' := snd (classify_document file clf w) in
  os w' = os w
  ∧ ∃ calls,
      classifier_calls (trace w') = classifier_calls (trace w) ++ calls
      ∧ (length calls ≤ 1)%nat
      ∧ Forall proper_call calls.
Proof.
  destruct (extract_text_from_pdf_stripped file w) as (raw & evs & Hex & Hevs).
  rewrite (classify_document_run _ _ _ _ _ Hex). cbv zeta.
  assert (Hproper : Py.strip raw ≠ "" →
            proper_call (Py.strip raw, CANDIDATE_LABELS)).
  { intros Hne. destruct (strip_ends raw) as [Hfirst Hlast].
    by repeat split. }
  case_decide as Ht.
  - split; [done|]. exists []. simpl.
    rewrite !classifier_calls_app, Hevs. simpl. rewrite !app_nil_r.
    split; [done|]. split; [lia|]. constructor.
  - assert (Hcalls : ∀ l : list Event,
              classifier_calls l = [] →
              classifier_calls
                ((trace w ++ evs) ++ EvClassify (Py.strip raw) CANDIDATE_LABELS :: l)
              = classifier_calls (trace w) ++ [(Py.strip raw, CANDIDATE_LABELS)]).
    { intros l Hl. rewrite !classifier_calls_app, Hevs, app_nil_r. f_equal.
      unfold classifier_calls in *. simpl. f_equal. exact Hl. }
    destruct (clf (Py.strip raw) CANDIDATE_LABELS) as [e|r]; simpl.
    + split; [done|]. eexists. split; [by apply Hcalls|]. split; [simpl; lia|].
      by apply Forall_singleton, Hproper.
    + destruct (labels r), (scores r); simpl; (split; [done|]);
        (eexists; split; [by apply Hcalls|]; split; [simpl; lia|]);
        by apply Forall_singleton, Hproper.
Qed.

(** X8. [classify_document] only reads: it leaves the machine as it was.
    It calls the classifier at most once, and then with the three
    candidate labels and a text that is not empty and has no white space
    at either end. *)
Theorem classify_document_calls (file : string) clf w :
  let w' := snd (classify_document file clf w) in
  os w' = os w
  ∧ ∃ calls,
      classifier_calls (trace w') = classifier_calls (trace w) ++ calls
      ∧ (length calls ≤ 1)%nat
      ∧ Forall proper_call calls.
Proof.
  apply classify_document_trace.
Qed.

(** ** More on names *)

Lemma take_drop n s : Py.take n s +:+ Py.drop n s = s.
Proof.
  revert s. induction n as [|n IH]; intros [|a s]; try done.
  simpl. by rewrite string_app_cons, IH.
Qed.

Lemma take_app_ge n a b :
  (String.length a ≤ n)%nat →
  Py.take n (a +:+ b) = a +:+ Py.take (n - String.length a) b.
Proof.
  revert n. induction a as [|x a IH]; intros n Hn.
  - rewrite !string_app_nil_l. simpl. by rewrite Nat.sub_0_r.
  - simpl in Hn. destruct n as [|n]; [lia|].
    rewrite !string_app_cons. simpl. rewrite IH by lia. done.
Qed.

Lemma drop_app_ge n a b :
  (String.length a ≤ n)%nat →
  Py.drop n (a +:+ b) = Py.drop (n - String.length a) b.
Proof.
  revert n. induction a as [|x a IH]; intros n Hn.
  - rewrite !string_app_nil_l. simpl. by rewrite Nat.sub_0_r.
  - simpl in Hn. destruct n as [|n]; [lia|].
    rewrite !string_app_cons. simpl. rewrite IH by lia. done.
Qed.

Lemma rfind_no_char c s : has_char c s = false → Py.rfind c s = -1.
Proof.
  induction s as [|a s IH]; [done|]. simpl.
  intros [Ha Hs]%orb_false_iff. rewrite IH by done.
  rewrite decide_False by lia. apply bool_decide_eq_false in Ha.
  by rewrite decide_False.
Qed.

Lemma no_char_rfind c s : Py.rfind c s = -1 → has_char c s = false.
Proof.
  induction s as [|a s IH]; [done|]. simpl.
  pose proof (rfind_bounds c s).
  destruct (decide (0 ≤ Py.rfind c s)); [lia|].
  destruct (decide (a = c)); [lia|].
  intros _. rewrite IH by lia. by rewrite bool_decide_eq_false_2.
Qed.

Lemma rfind_head c s : has_char c s = false → Py.rfind c (String c s) = 0.
Proof.
  intros Hs. simpl. rewrite (rfind_no_char _ _ Hs).
  rewrite decide_False by lia. by rewrite decide_True.
Qed.

(** What follows the last separator holds no separator. *)
Lemma basename_no_sep p : has_char "/" (OsPath.basename p) = false.
Proof.
  unfold OsPath.basename, OsPath.sep.
  induction p as [|a p IH]; [done|]. simpl Py.rfind.
  pose proof (rfind_bounds "/" p) as Hb.
  case_decide as Hr.
  - replace (Z.to_nat (Py.rfind "/" p + 1 + 1))
      with (S (Z.to_nat (Py.rfind "/" p + 1))) by lia.
    exact IH.
  - assert (Hp : has_char "/" p = false) by (apply no_char_rfind; lia).
    case_decide as Ha; simpl; [done|].
    by rewrite Hp, bool_decide_eq_false_2.
Qed.

Lemma no_sep_no_lead s : has_char "/" s = false → no_lead s.
Proof.
  unfold no_lead. destruct s as [|a s]; [done|]. simpl.
  intros [Ha _]%orb_false_iff. apply bool_decide_eq_false in Ha.
  by rewrite decide_False.
Qed.

(** Both parts of [splitext] put together give the path back. *)
Lemma splitext_round_trip p :
  (OsPath.splitext p).1 +:+ (OsPath.splitext p).2 = p.
Proof.
  unfold OsPath.splitext.
  repeat case_match; simpl; by rewrite ?take_drop, ?string_app_nil_r.
Qed.

(** The stem of a path in a directory stays in that directory. *)
Lemma splitext_in_dir d base :
  has_char "/" base = false →
  ∃ stem,
    (OsPath.splitext (d +:+ "/" +:+ base)).1 = d +:+ "/" +:+ stem
    ∧ stem +:+ (OsPath.splitext (d +:+ "/" +:+ base)).2 = base.
Proof.
  intros Hbase. unfold OsPath.splitext.
  assert (Hsep : Py.rfind OsPath.sep (d +:+ "/" +:+ base)
                 = Z.of_nat (String.length d)).
  { rewrite rfind_app. unfold OsPath.sep.
    change ("/" +:+ base) with (String "/" base).
    rewrite (rfind_head _ _ Hbase). rewrite decide_True by lia. lia. }
  rewrite Hsep.
  case_decide as Hdot; [|by exists base; rewrite string_app_nil_r].
  destruct (OsPath.has_non_dot _ _ _);
    [|by exists base; rewrite string_app_nil_r].
  simpl. set (n := Z.to_nat _).
  rewrite <-(string_app_assoc d "/" base).
  assert (Hlen : (String.length (d +:+ "/") ≤ n)%nat).
  { rewrite string_length_app. simpl. lia. }
  rewrite take_app_ge, drop_app_ge by done.
  eexists. rewrite string_app_assoc. split; [done|]. apply take_drop.
Qed.

(** ** More on moving a file *)

(** The two ways duplicate resolution ends. *)
Lemma resolve_duplicate_cases (target : string) w :
  ∃ r evs,
    resolve_duplicate target w
    = (Return r, mk_World (os w) (trace w ++ evs))
    ∧ classifier_calls evs = []
    ∧ (r ∉ paths (os w))
    ∧ (r = target
       ∨ ∃ n, 1 ≤ n
           ∧ r = candidate (OsPath.splitext target).1
                   (OsPath.splitext target).2 n).
Proof.
  destruct (decide (target ∈ paths (os w))) as [Hbusy|Hfree].
  - destruct (resolve_duplicate_busy target w Hbusy)
      as (n & Hn & Hrun & Hnfree & _).
    eexists _, [_]. split; [exact Hrun|]. split; [done|]. split; [done|].
    right. by exists n.
  - exists target, []. rewrite app_nil_r, world_eta.
    split; [by apply resolve_duplicate_free|]. split; [done|]. split; [done|].
    by left.
Qed.

(** What [move_file_to_correct_directory] does for a known type. *)
Lemma move_cases (file label : string) (date : datetime) w :
  ∃ ro w' evs,
    move_file_to_correct_directory file (Some label) date w = (Return ro, w')
    ∧ trace w' = trace w ++ evs
    ∧ classifier_calls evs = []
    ∧ ∀ p, ro = Some p →
        ∃ st1,
          sys_makedirs (target_dir label date) (os w) = (inr (), st1)
          ∧ (p ∉ paths st1)
          ∧ sys_move file p st1 = (inr (), os w')
          ∧ let target :=
              OsPath.join (target_dir label date) [OsPath.basename file] in
            p = target
            ∨ ∃ n, 1 ≤ n
                ∧ p = candidate (OsPath.splitext target).1
                        (OsPath.splitext target).2 n.
Proof.
  rewrite move_run. cbv zeta.
  destruct (sys_makedirs _ _) as [[e|[]] st1] eqn:Hmk.
  { eexists _, _, [_]. by repeat split. }
  set (target := OsPath.join _ _).
  destruct (resolve_duplicate_cases target (mk_World st1 (trace w)))
    as (r & evs & -> & Hevs & Hfree & Hshape).
  simpl os. simpl trace.
  destruct (sys_move file r st1) as [[e|[]] st2] eqn:Hmv.
  - eexists _, _, (evs ++ [_]). split; [done|]. simpl.
    split; [by rewrite app_assoc|].
    split; [by rewrite classifier_calls_app, Hevs|]. done.
  - eexists _, _, (evs ++ [_]). split; [done|]. simpl.
    split; [by rewrite app_assoc|].
    split; [by rewrite classifier_calls_app, Hevs|].
    intros p [= <-]. exists st1. by repeat split.
Qed.

(** X9. A move that returns a path has created the target directory and
    then handed [shutil.move] a destination at which nothing existed: the
    operation never aims at an existing path. The machine it leaves is the
    one that call left. *)
Theorem move_never_overwrites (file label : string) (date : datetime) w p w' :
  move_file_to_correct_directory file (Some label) date w
  = (Return (Some p), w') →
  ∃ st1,
    sys_makedirs (target_dir label date) (os w) = (inr (), st1)
    ∧ isdir st1 (target_dir label date) = true
    ∧ (p ∉ paths st1)
    ∧ sys_move file p st1 = (inr (), os w').
Proof.
  intros Hrun.
  destruct (move_cases file label date w) as (ro & w0 & evs & Hm & _ & _ & Hp).
  rewrite Hrun in Hm. injection Hm as <- <-.
  destruct (Hp p eq_refl) as (st1 & Hmk & Hfree & Hmv & _).
  exists st1. split; [done|]. split; [by eapply makedirs_isdir|]. done.
Qed.

(** X10. A path returned by the move lies directly in the target
    directory and carries the name of the source file: the name itself, or
    the name with [_n], [n >= 1], put in before its extension. No
    character of the name is lost. *)
Theorem move_keeps_the_name (file label : string) (date : datetime) w p w' :
  move_file_to_correct_directory file (Some label) date w
  = (Return (Some p), w') →
  ∃ stem ext suffix,
    stem +:+ ext = OsPath.basename file
    ∧ p = target_dir label date +:+ "/" +:+ stem +:+ suffix +:+ ext
    ∧ (suffix = "" ∨ ∃ n, 1 ≤ n ∧ suffix = "_" +:+ Py.str n).
Proof.
  intros Hrun.
  destruct (move_cases file label date w) as (ro & w0 & evs & Hm & _ & _ & Hp).
  rewrite Hrun in Hm. injection Hm as <- <-.
  destruct (Hp p eq_refl) as (st1 & _ & _ & _ & Hshape). cbv zeta in Hshape.
  assert (Htarget :
    OsPath.join (target_dir label date) [OsPath.basename file]
    = target_dir label date +:+ "/" +:+ OsPath.basename file).
  { unfold OsPath.join. simpl. apply join2_plain.
    - apply target_dir_plain_end.
    - apply no_sep_no_lead, basename_no_sep. }
  rewrite Htarget in Hshape.
  destruct Hshape as [->|(n & Hn & ->)].
  - exists (OsPath.basename file), "", "". rewrite !string_app_nil_r.
    split; [done|]. split; [done|]. by left.
  - destruct (splitext_in_dir (target_dir label date) (OsPath.basename file)
                (basename_no_sep file)) as (stem & Hstem & Hext).
    exists stem, (OsPath.splitext
                    (target_dir label date +:+ "/" +:+ OsPath.basename file)).2,
           ("_" +:+ Py.str n).
    split; [done|]. split; [|right; by exists n].
    unfold candidate. rewrite Hstem. by rewrite !string_app_assoc.
Qed.

(** ** More on polling *)

(** One turn of the loop, with a console that takes what is printed and
    calls that fail with an [OSError] only: by how much the count grows and
    where the world ends up depends on the file and the world alone. *)
Lemma process_loop_step clf (f : string) w :
  ∃ (inc : Z) w1 calls,
    (inc = 0 ∨ inc = 1)
    ∧ classifier_calls (trace w1) = classifier_calls (trace w) ++ calls
    ∧ (length calls ≤ 1)%nat
    ∧ Forall proper_call calls
    ∧ ∀ n rest,
        process_loop clf (f :: rest) n w = process_loop clf rest (n + inc) w1.
Proof.
  pose proof (classify_document_trace (OsPath.join INPUT_DIR [f]) clf w) as Htr.
  cbv zeta in Htr.
  destruct (classify_document_total (OsPath.join INPUT_DIR [f]) clf w)
    as ([label|] & w1 & Hc);
    rewrite Hc in Htr; simpl in Htr;
    destruct Htr as (_ & calls & Hcalls & Hlen & Hproper).
  - destruct (sys_now (os w1)) as [now st2] eqn:Hnow.
    destruct (move_cases (OsPath.join INPUT_DIR [f]) label now
                (mk_World st2
                   (trace w1 ++
                    [EvLog INFO "Document %s classified as: %s"
                       [AStr f; AStr label]] ++
                    [EvPrint (String "013"%char "Sorting document: " +:+ f
                              +:+ " | Classified as: " +:+ label
                              +:+ " | Remaining time: "
                              +:+ Py.str CHECK_INTERVAL +:+ "s")])))
      as (ro & w3 & evs & Hm & Htrace & Hevs & _).
    exists (if ro is Some _ then 1 else 0), w3, calls.
    split; [destruct ro; auto|]. split.
    { rewrite Htrace. simpl trace.
      rewrite !classifier_calls_app, Hevs, Hcalls. simpl.
      by rewrite !app_nil_r. }
    split; [done|]. split; [done|]. intros n rest.
    rewrite (process_loop_classified _ _ _ _ _ _ _ _ _ _ _ Hc Hnow Hm).
    destruct ro; [done|]. by rewrite Z.add_0_r.
  - exists 0, w1, calls. split; [auto|]. split; [done|]. split; [done|].
    split; [done|]. intros n rest.
    rewrite (process_loop_unclassified _ _ _ _ _ _ Hc). by rewrite Z.add_0_r.
Qed.

(** The loop over a whole list, under the same conditions. *)
Lemma process_loop_run clf (files : list string) w :
  ∃ (k : Z) w1 calls,
    process_loop clf files 0 w = (Return k, w1)
    ∧ 0 ≤ k ≤ Z.of_nat (length files)
    ∧ classifier_calls (trace w1) = classifier_calls (trace w) ++ calls
    ∧ (length calls ≤ length files)%nat
    ∧ Forall proper_call calls
    ∧ ∀ rest n,
        process_loop clf (files ++ rest) n w = process_loop clf rest (n + k) w1.
Proof.
  revert w. induction files as [|f files IH]; intros w.
  - exists 0, w, []. rewrite app_nil_r. repeat split; try done.
    intros rest n. simpl. by rewrite Z.add_0_r.
  - destruct (process_loop_step clf f w)
      as (inc & wa & c1 & Hinc & Hc1 & Hl1 & Hp1 & Hstep).
    destruct (IH wa) as (k & wb & c2 & Hrun & Hk & Hc2 & Hl2 & Hp2 & Happ).
    exists (inc + k), wb, (c1 ++ c2).
    split.
    { rewrite Hstep. rewrite <-(app_nil_r files), Happ. done. }
    split; [simpl length; destruct Hinc; lia|].
    split; [by rewrite Hc2, Hc1, app_assoc|].
    split; [rewrite length_app; simpl; lia|].
    split; [by apply Forall_app|].
    intros rest n. change ((f :: files) ++ rest) with (f :: (files ++ rest)).
    rewrite Hstep, Happ. f_equal. lia.
Qed.

(** X11. The count a poll returns is at least 0 and at most the number of
    entries of the input directory whose name ends in [.pdf]. *)
Theorem process_files_count_bounds clf w (k : Z) w' :
  process_files clf w = (Return k, w') →
  0 ≤ k
  ∧ ∀ names,
      sys_listdir INPUT_DIR (os w) = inr names →
      k ≤ Z.of_nat
            (length (filter (λ f, Py.endswith f ".pdf" = true) names)).
Proof.
  rewrite process_files_run.
  destruct (sys_listdir INPUT_DIR (os w)) as [e|names].
  { intros [= <- _]. split; [done|]. by intros ? [=]. }
  destruct (filter _ names) as [|f rest] eqn:Hf.
  { intros [= <- _]. split; [done|]. intros ? [= <-]. by rewrite Hf. }
  destruct (process_loop_run clf (f :: rest) w) as (k0 & w1 & _ & -> & Hk & _).
  intros [= <- _]. split; [lia|]. intros ? [= <-]. rewrite Hf. lia.
Qed.

(** X12. A poll over an input directory that holds no name ending in
    [.pdf] returns 0, logs that there is nothing to sort and leaves the
    machine as it was. *)
Theorem process_files_nothing_to_sort clf w (names : list string) :
  sys_listdir INPUT_DIR (os w) = inr names →
  Forall (λ f, Py.endswith f ".pdf" = false) names →
  process_files clf w
  = (Return 0,
     mk_World (os w)
       (trace w ++
        [EvLog INFO "No PDF files to sort. Checking again in %d seconds."
           [AInt CHECK_INTERVAL]])).
Proof.
  intros Hls Hnames. rewrite process_files_run, Hls.
  assert (filter (λ f, Py.endswith f ".pdf" = true) names = []) as ->; [|done].
  clear Hls. induction Hnames as [|f names Hf _ IH]; [done|].
  rewrite filter_cons_False; [exact IH|]. by rewrite Hf.
Qed.

(** X13. With a classifier that raises on every text, a poll moves
    nothing: it returns 0 and the machine is as it was before. *)
Theorem process_files_failing_classifier clf w :
  (∀ text, ∃ e, clf text CANDIDATE_LABELS = inl e) →
  ∃ w', process_files clf w = (Return 0, w') ∧ os w' = os w.
Proof.
  intros Hfail.
  assert (Hnone : ∀ file w0,
            ∃ w1, classify_document file clf w0 = (Return None, w1)
                  ∧ os w1 = os w0).
  { intros file w0.
    destruct (extract_text_from_pdf_run file w0) as (text & evs & Hex & _).
    rewrite (classify_document_run _ _ _ _ _ Hex).
    case_decide; [by eexists|].
    destruct (Hfail text) as [e ->]. by eexists. }
  assert (Hloop : ∀ files n w0,
            ∃ w1, process_loop clf files n w0 = (Return n, w1)
                  ∧ os w1 = os w0).
  { induction files as [|f files IH]; intros n w0; [by eexists|].
    destruct (Hnone (OsPath.join INPUT_DIR [f]) w0) as (w1 & Hc & Hos).
    rewrite (process_loop_unclassified _ _ _ _ _ _ Hc).
    destruct (IH n w1) as (w2 & -> & Hos2). eexists. split; [done|].
    by rewrite Hos2. }
  rewrite process_files_run.
  destruct (sys_listdir INPUT_DIR (os w)) as [e|names]; [by eexists|].
  destruct (filter _ names) as [|f rest]; [by eexists|]. apply Hloop.
Qed.


(** ** More on the setup *)

Lemma setup_directory_structure_unfold :
  setup_directory_structure
  = (tree_loops;; os_makedirs INPUT_DIR;;
     log INFO "Directory structure initialized" []).
Proof. reflexivity. Qed.

Lemma os_makedirs_quiet p : quiet_step (os_makedirs p).
Proof.
  intros w. unfold os_makedirs.
  destruct (sys_makedirs p (os w)) as [[e|[]] st']; eexists;
    (split; [|eauto]); done.
Qed.

Lemma for_quiet {A} (l : list A) (body : A → M St unit) :
  (∀ x, quiet_step (body x)) → quiet_step (for_ l body).
Proof.
  intros Hb. induction l as [|x l IH]; intros w; simpl.
  - exists w. split; [done|]. by left.
  - rewrite bind_run. destruct (Hb x w) as (w1 & Ht & [->|[e ->]]).
    + destruct (IH w1) as (w2 & Ht2 & Hrun). exists w2.
      split; [congruence|]. done.
    + exists w1. split; [done|]. right. by exists e.
Qed.

Lemma tree_loops_quiet : quiet_step tree_loops.
Proof.
  unfold tree_loops. repeat (apply for_quiet; intros ?). apply os_makedirs_quiet.
Qed.

Lemma tree_loops_keeps : keeps_dirs tree_loops.
Proof.
  unfold tree_loops. repeat (apply for_keeps; intros ?). apply os_makedirs_keeps.
Qed.

Lemma tree_loops_creates w w' T y m wk :
  tree_loops w = (Return (), w') →
  T ∈ DOCUMENT_TYPES → 2020 ≤ y ≤ 2030 → 1 ≤ m ≤ 12 → 1 ≤ wk ≤ 5 →
  isdir (os w')
    (OsPath.join OUTPUT_DIR
       [T; Py.str y; "Month_" +:+ Py.str m; "Week_" +:+ Py.str wk])
  = true.
Proof.
  intros Hrun HT Hy Hm Hwk. unfold tree_loops in Hrun.
  eapply for_creates with (x := T)
    (D := λ T q, ∃ y m wk, 2020 ≤ y ≤ 2030 ∧ 1 ≤ m ≤ 12 ∧ 1 ≤ wk ≤ 5 ∧
             q = OsPath.join OUTPUT_DIR
                   [T; Py.str y; "Month_" +:+ Py.str m; "Week_" +:+ Py.str wk]);
    [| |exact Hrun|exact HT|by exists y, m, wk].
  { intros ?. repeat (apply for_keeps; intros ?). apply os_makedirs_keeps. }
  clear. intros T w w' q _ Hrun (y & m & wk & Hy & Hm & Hwk & ->).
  eapply for_creates with (x := y)
    (D := λ y q, ∃ m wk, 1 ≤ m ≤ 12 ∧ 1 ≤ wk ≤ 5 ∧
             q = OsPath.join OUTPUT_DIR
                   [T; Py.str y; "Month_" +:+ Py.str m; "Week_" +:+ Py.str wk]);
    [| |exact Hrun|apply elem_of_range; lia|by exists m, wk].
  { intros ?. repeat (apply for_keeps; intros ?). apply os_makedirs_keeps. }
  clear. intros y w w' q _ Hrun (m & wk & Hm & Hwk & ->).
  eapply for_creates with (x := m)
    (D := λ m q, ∃ wk, 1 ≤ wk ≤ 5 ∧
             q = OsPath.join OUTPUT_DIR
                   [T; Py.str y; "Month_" +:+ Py.str m; "Week_" +:+ Py.str wk]);
    [| |exact Hrun|apply elem_of_range; lia|by exists wk].
  { intros ?. repeat (apply for_keeps; intros ?). apply os_makedirs_keeps. }
  clear. intros m w w' q _ Hrun (wk & Hwk & ->).
  eapply for_creates with (x := wk)
    (D := λ wk q, q = OsPath.join OUTPUT_DIR
                   [T; Py.str y; "Month_" +:+ Py.str m; "Week_" +:+ Py.str wk]);
    [| |exact Hrun|apply elem_of_range; lia|done].
  { intros ?. apply os_makedirs_keeps. }
  clear. intros wk w w' q _ Hrun ->. cbv beta in Hrun.
  by eapply os_makedirs_creates.
Qed.

Lemma tree_loops_idle w :
  (∀ T y m wk,
     T ∈ DOCUMENT_TYPES → 2020 ≤ y ≤ 2030 → 1 ≤ m ≤ 12 → 1 ≤ wk ≤ 5 →
     isdir (os w)
       (OsPath.join OUTPUT_DIR
          [T; Py.str y; "Month_" +:+ Py.str m; "Week_" +:+ Py.str wk])
     = true) →
  tree_loops w = (Return (), w).
Proof.
  intros Htree. unfold tree_loops.
  apply for_idle. intros T HT. apply for_idle. intros y Hy%elem_of_range.
  apply for_idle. intros m Hm%elem_of_range.
  apply for_idle. intros wk Hwk%elem_of_range.
  apply os_makedirs_existing. apply Htree; [done|lia..].
Qed.

(** The ways [setup_directory_structure] can end. *)
Lemma setup_directory_structure_cases w :
  (∃ w1 w2,
     tree_loops w = (Return (), w1)
     ∧ os_makedirs INPUT_DIR w1 = (Return (), w2)
     ∧ trace w1 = trace w ∧ trace w2 = trace w
     ∧ setup_directory_structure w
       = (Return (), mk_World (os w2) (trace w ++ [setup_done])))
  ∨ (∃ e w', setup_directory_structure w = (Raise (ExOSError e), w')
             ∧ trace w' = trace w).
Proof.
  rewrite setup_directory_structure_unfold, bind_run.
  destruct (tree_loops_quiet w) as (w1 & Ht1 & [->|[e ->]]);
    [|right; exists e, w1; by split].
  rewrite bind_run.
  destruct (os_makedirs_quiet INPUT_DIR w1) as (w2 & Ht2 & [Hin|[e Hin]]);
    rewrite Hin.
  - left. exists w1, w2. rewrite log_run. simpl. unfold setup_done.
    rewrite Ht2, Ht1. by repeat split.
  - right. exists e, w2. split; [done|]. congruence.
Qed.

(** X16. [setup_directory_structure] ends in one of two ways: it returns,
    and the last record of the log says that the structure is initialised;
    or the [OSError] of a failed [os.makedirs] leaves it uncaught, and then
    nothing has been logged. *)
Theorem setup_directory_structure_outcome w :
  (∃ w', setup_directory_structure w = (Return (), w')
         ∧ trace w' = trace w ++ [setup_done])
  ∨ (∃ e w', setup_directory_structure w = (Raise (ExOSError e), w')
             ∧ trace w' = trace w).
Proof.
  destruct (setup_directory_structure_cases w)
    as [(w1 & w2 & _ & _ & _ & _ & Hrun)|Hraise]; [left|by right].
  by eexists.
Qed.

Lemma setup_directory_structure_input w w' :
  setup_directory_structure w = (Return (), w') →
  isdir (os w') INPUT_DIR = true.
Proof.
  intros Hrun.
  destruct (setup_directory_structure_cases w)
    as [(w1 & w2 & _ & Hin & _ & _ & Hrun')|(e & w0 & Hraise & _)];
    [|by rewrite Hrun in Hraise].
  rewrite Hrun in Hrun'. injection Hrun' as ->. simpl.
  by eapply os_makedirs_creates.
Qed.

(** X17. After a run of [setup_directory_structure] that returns, the
    input directory exists. *)
Theorem setup_directory_structure_input_dir w w' :
  setup_directory_structure w = (Return (), w') →
  isdir (os w') INPUT_DIR = true.
Proof. apply setup_directory_structure_input. Qed.

(** X18. [setup_directory_structure] removes nothing: a directory that
    exists before the call exists after it, also when the call raises. *)
Theorem setup_directory_structure_keeps_dirs w r w' (q : string) :
  setup_directory_structure w = (r, w') →
  isdir (os w) q = true →
  isdir (os w') q = true.
Proof.
  rewrite setup_directory_structure_unfold, bind_run. intros Hrun Hq.
  destruct (tree_loops w) as [[[]|e|] w1] eqn:Hloops.
  - assert (Hq1 : isdir (os w1) q = true) by (by eapply tree_loops_keeps).
    rewrite bind_run in Hrun.
    destruct (os_makedirs INPUT_DIR w1) as [[[]|e|] w2] eqn:Hin.
    + assert (isdir (os w2) q = true) by (by eapply os_makedirs_keeps).
      rewrite log_run in Hrun. by injection Hrun as <- <-.
    + injection Hrun as <- <-. by eapply os_makedirs_keeps.
    + injection Hrun as <- <-. by eapply os_makedirs_keeps.
  - injection Hrun as <- <-. by eapply tree_loops_keeps.
  - injection Hrun as <- <-. by eapply tree_loops_keeps.
Qed.

(** After a run that returns, the whole tree is there. *)
Lemma setup_directory_structure_tree w w' T y m wk :
  setup_directory_structure w = (Return (), w') →
  T ∈ DOCUMENT_TYPES → 2020 ≤ y ≤ 2030 → 1 ≤ m ≤ 12 → 1 ≤ wk ≤ 5 →
  isdir (os w')
    (OsPath.join OUTPUT_DIR
       [T; Py.str y; "Month_" +:+ Py.str m; "Week_" +:+ Py.str wk])
  = true.
Proof.
  intros Hrun HT Hy Hm Hwk.
  destruct (setup_directory_structure_cases w)
    as [(w1 & w2 & Hloops & Hin & _ & _ & Hrun')|(e & w0 & Hraise & _)];
    [|by rewrite Hrun in Hraise].
  rewrite Hrun in Hrun'. injection Hrun' as ->. simpl.
  eapply os_makedirs_keeps; [exact Hin|]. by eapply tree_loops_creates.
Qed.

(** X19. Setting up twice is setting up once: a second run in the world
    the first one left returns, changes nothing on the machine and only adds
    its record to the log. *)
Theorem setup_directory_structure_twice w w1 :
  setup_directory_structure w = (Return (), w1) →
  setup_directory_structure w1
  = (Return (), mk_World (os w1) (trace w1 ++ [setup_done])).
Proof.
  intros Hrun. rewrite setup_directory_structure_unfold, bind_run.
  rewrite tree_loops_idle.
  - rewrite bind_run, os_makedirs_existing
      by (by eapply setup_directory_structure_input).
    by rewrite log_run.
  - intros T y m wk HT Hy Hm Hwk.
    by eapply setup_directory_structure_tree.
Qed.

(** X20. After the setup, a file of one of the three candidate types,
    dated in the years 2020 to 2030, finds its target directory in place:
    the [os.makedirs] of the move has nothing to create and succeeds
    without changing the machine. *)
Theorem setup_prepares_the_move w w1 (label : string) (date : datetime) :
  setup_directory_structure w = (Return (), w1) →
  label ∈ CANDIDATE_LABELS →
  2020 ≤ year date ≤ 2030 → 1 ≤ month date ≤ 12 → 1 ≤ day date →
  isdir (os w1) (target_dir label date) = true
  ∧ sys_makedirs (target_dir label date) (os w1) = (inr (), os w1).
Proof.
  intros Hrun Hl Hy Hm Hd.
  assert (Hdir : isdir (os w1) (target_dir label date) = true).
  { unfold target_dir. cbv zeta.
    eapply setup_directory_structure_tree; [exact Hrun| |done|done|].
    - unfold CANDIDATE_LABELS in Hl. unfold DOCUMENT_TYPES.
      rewrite !elem_of_cons in Hl. rewrite !elem_of_cons.
      destruct Hl as [->|[->|[->|Hl]]]; [by left|by right; left|
                                         by right; right; left|].
      by apply elem_of_nil in Hl.
    - unfold get_week_of_month.
      assert (0 ≤ (day date - 1) `div` 7) by (apply Z.div_pos; lia). lia. }
  split; [done|]. by apply makedirs_existing.
Qed.

End MoreProperties.

(** ** The further properties on the in-memory machine *)

Lemma extract_text_from_pdf_joins_pages_witness :
  @extract_text_from_pdf _ mem_os "./incoming_documents/a.pdf"
    (world0 (pages_os four_pages))
  = (Return "Page 1Page 2", world0 (pages_os four_pages)).
Proof.
  rewrite (proj1 (@extract_text_from_pdf_joins_pages _ mem_os
                    "./incoming_documents/a.pdf" four_pages
                    (world0 (pages_os four_pages)) eq_refl
                    ltac:(repeat constructor))).
  reflexivity.
Defined.

Lemma extract_text_from_pdf_failure_witness :
  @extract_text_from_pdf _ mem_os "./incoming_documents/a.pdf"
    (world0 (pages_os torn_pages))
  = (Return "",
     mk_World (pages_os torn_pages)
       [EvLog ERROR "Error extracting text from %s: %s"
          [AStr "./incoming_documents/a.pdf";
           AExn (ExOther "PDFSyntaxError" "bad page")]])
  ∧ @extract_text_from_pdf _ mem_os "./incoming_documents/a.pdf"
      (world0 empty_os)
    = (Return "",
       mk_World empty_os
         [EvLog ERROR "File not found: %s"
            [AStr "./incoming_documents/a.pdf"]]).
Proof.
  split.
  - rewrite (proj2 (@extract_text_from_pdf_failure _ mem_os
                      "./incoming_documents/a.pdf"
                      (world0 (pages_os torn_pages)))
               [inr (Some "Page 1")] (ExOther "PDFSyntaxError" "bad page")
               [inr (Some "Page 3")]).
    + reflexivity.
    + reflexivity.
    + repeat constructor.
  - rewrite (proj1 (@extract_text_from_pdf_failure _ mem_os
                      "./incoming_documents/a.pdf" (world0 empty_os))
               (ExOSError (mk_OSError (Some ENOENT) "No such file or directory"))).
    + reflexivity.
    + reflexivity.
Defined.

Lemma classify_document_blank_witness :
  @classify_document _ mem_os "./incoming_documents/a.pdf"
    invoice_classifier (world0 (pages_os white_pages))
  = (Return None,
     mk_World (pages_os white_pages)
       [EvLog WARNING "No text extracted from %s. Skipping classification."
          [AStr "./incoming_documents/a.pdf"]]).
Proof.
  rewrite (@classify_document_blank _ mem_os "./incoming_documents/a.pdf"
             white_pages).
  - reflexivity.
  - reflexivity.
  - repeat constructor.
  - reflexivity.
Defined.

Lemma classify_document_unranked_witness :
  fst (@classify_document _ mem_os "./incoming_documents/a.pdf"
         unranked_classifier (world0 sample_os))
  = Return None.
Proof.
  erewrite (@classify_document_unranked _ mem_os "./incoming_documents/a.pdf"
              "invoice text" unranked_classifier (world0 sample_os)).
  - reflexivity.
  - vm_compute. reflexivity.
  - discriminate.
  - reflexivity.
  - left. reflexivity.
Defined.

Lemma move_never_overwrites_witness :
  ∃ st1,
    sys_makedirs "./sorted_documents/Invoices/2024/Month_6/Week_3"
      taken_slot_os = (inr (), st1)
    ∧ isdir st1 "./sorted_documents/Invoices/2024/Month_6/Week_3" = true
    ∧ ("./sorted_documents/Invoices/2024/Month_6/Week_3/a_1.pdf" ∉ paths st1)
    ∧ sys_move "./incoming_documents/a.pdf"
        "./sorted_documents/Invoices/2024/Month_6/Week_3/a_1.pdf" st1
      = (inr (),
         os (snd (@move_file_to_correct_directory _ mem_os default_config
                    "./incoming_documents/a.pdf" (Some "Invoice") june15
                    (world0 taken_slot_os)))).
Proof.
  apply (@move_never_overwrites _ mem_os default_config
           "./incoming_documents/a.pdf" "Invoice" june15
           (world0 taken_slot_os)).
  apply pair_eta_fst. vm_compute. reflexivity.
Defined.

Lemma move_keeps_the_name_witness :
  ∃ stem ext suffix,
    stem +:+ ext = "a.pdf"
    ∧ "./sorted_documents/Invoices/2024/Month_6/Week_3/a_1.pdf"
      = "./sorted_documents/Invoices/2024/Month_6/Week_3"
          +:+ "/" +:+ stem +:+ suffix +:+ ext
    ∧ (suffix = "" ∨ ∃ n, 1 ≤ n ∧ suffix = "_" +:+ Py.str n).
Proof.
  apply (@move_keeps_the_name _ mem_os default_config
           "./incoming_documents/a.pdf" "Invoice" june15
           (world0 taken_slot_os)
           "./sorted_documents/Invoices/2024/Month_6/Week_3/a_1.pdf"
           (snd (@move_file_to_correct_directory _ mem_os default_config
                   "./incoming_documents/a.pdf" (Some "Invoice") june15
                   (world0 taken_slot_os)))).
  apply pair_eta_fst. vm_compute. reflexivity.
Defined.

Lemma process_files_count_bounds_witness :
  0 ≤ 1
  ∧ 1 ≤ Z.of_nat
          (length (filter (λ f, Py.endswith f ".pdf" = true) ["a.pdf"])).
Proof.
  destruct (@process_files_count_bounds _ mem_os default_config
              invoice_classifier (world0 sample_os) 1
              (snd (@process_files _ mem_os default_config invoice_classifier
                      (world0 sample_os))))
    as [H0 Hle].
  - apply pair_eta_fst. vm_compute. reflexivity.
  - split; [exact H0|]. apply Hle. vm_compute. reflexivity.
Defined.

Lemma process_files_nothing_to_sort_witness :
  @process_files _ mem_os default_config invoice_classifier (world0 notes_os)
  = (Return 0,
     mk_World notes_os
       [EvLog INFO "No PDF files to sort. Checking again in %d seconds."
          [AInt 30]]).
Proof.
  rewrite (@process_files_nothing_to_sort _ mem_os default_config
             invoice_classifier (world0 notes_os) ["notes.txt"]).
  - reflexivity.
  - vm_compute. reflexivity.
  - repeat constructor.
Defined.

Lemma process_files_failing_classifier_witness :
  ∃ w', @process_files _ mem_os default_config broken_classifier
          (world0 sample_os) = (Return 0, w')
        ∧ os w' = sample_os.
Proof.
  apply (@process_files_failing_classifier _ mem_os default_config
           broken_classifier (world0 sample_os)).
  intros text. eexists. reflexivity.
Defined.


Lemma setup_directory_structure_input_dir_witness :
  isdir
    (os (snd (@setup_directory_structure _ mem_os default_config
                (world0 empty_os))))
    "./incoming_documents" = true.
Proof.
  apply (@setup_directory_structure_input_dir _ mem_os default_config
           (world0 empty_os)).
  apply pair_eta_fst. vm_compute. reflexivity.
Defined.

Lemma setup_directory_structure_keeps_dirs_witness :
  isdir
    (os (snd (@setup_directory_structure _ mem_os default_config
                (world0 sample_os))))
    "./incoming_documents" = true.
Proof.
  apply (@setup_directory_structure_keeps_dirs _ mem_os default_config
           (world0 sample_os)
           (fst (@setup_directory_structure _ mem_os default_config
                   (world0 sample_os)))).
  - apply surjective_pairing.
  - reflexivity.
Defined.

Lemma setup_directory_structure_twice_witness :
  fst (@setup_directory_structure _ mem_os default_config
         (snd (@setup_directory_structure _ mem_os default_config
                 (world0 empty_os))))
  = Return ().
Proof.
  rewrite (@setup_directory_structure_twice _ mem_os default_config
             (world0 empty_os)).
  - reflexivity.
  - apply pair_eta_fst. vm_compute. reflexivity.
Defined.

Lemma setup_prepares_the_move_witness :
  isdir
    (os (snd (@setup_directory_structure _ mem_os default_config
                (world0 empty_os))))
    (@target_dir default_config "Invoice" june15) = true.
Proof.
  refine (proj1 (@setup_prepares_the_move _ mem_os default_config
                   (world0 empty_os) _ "Invoice" june15 _ _ _ _ _)).
  - apply pair_eta_fst. vm_compute. reflexivity.
  - refine (bool_decide_unpack _ _). vm_compute. exact I.
  - simpl. lia.
  - simpl. lia.
  - simpl. lia.
Defined.
